(** * The end-to-end harness of debugger-cli ([tests/e2e/run_tests.py])

    A shallow embedding of the harness that drives the [debugger] binary
    through one scripted session per debuggee language, and the properties
    of it that the specification states.

    The harness is effectful Python: it creates and removes directories,
    spawns child processes and prints a transcript.  It is embedded in a
    state-and-exception monad over a [World] holding the paths that exist,
    the state of everything outside the harness, and the effects performed
    so far.  What child processes answer is not decided by the harness: it
    is a parameter, the [Host]. *)

From Stdlib Require Import ZArith String Ascii List Bool Lia.
From stdpp Require Import base gmap strings list pretty.

Open Scope string_scope.
Open Scope Z_scope.

(** ** Strings and paths *)

(** The double quote and the line feed, which string literals here avoid. *)
Definition dq : string := String (ascii_of_nat 34) EmptyString.
Definition nl : string := String (ascii_of_nat 10) EmptyString.

(** [str.endswith] for a one-character suffix. *)
Fixpoint ends_with (c : ascii) (s : string) : bool :=
  match s with
  | EmptyString => false
  | String a EmptyString => Ascii.eqb a c
  | String _ r => ends_with c r
  end.

(** [posixpath.join] of two components. *)
Definition path_join (a b : string) : string :=
  if String.prefix "/" b then b
  else if (String.eqb a "" || ends_with "/" a)%bool then a +:+ b
  else a +:+ "/" +:+ b.

(** [os.path.join(a, b, c, ...)]. *)
Definition path_join_all (a : string) (bs : list string) : string :=
  fold_left path_join bs a.

(** A directory as a prefix of everything beneath it. *)
Definition dir_prefix (d : string) : string :=
  if ends_with "/" d then d else d +:+ "/".

(** [p] is the directory [d] itself or lies beneath it. *)
Definition under (d p : string) : Prop :=
  p = d ∨ String.prefix (dir_prefix d) p = true.

#[global] Instance under_dec d p : Decision (under d p).
Proof. unfold under. apply _. Defined.

(** [p] lies beneath [d] and is not [d]. *)
Definition strictly_inside (d p : string) : Prop :=
  p ≠ d ∧ String.prefix (dir_prefix d) p = true.

(** The proper ancestors of a path: what stands before each separator. *)
Fixpoint parents_from (pre rest : string) : list string :=
  match rest with
  | EmptyString => []
  | String c r =>
      ((if (Ascii.eqb c "/" && negb (String.eqb pre ""))%bool then [pre] else [])
         ++ parents_from (pre +:+ String c EmptyString) r)%list
  end.

Definition parents (p : string) : list string := parents_from "" p.

(** Python's [needle in hay] on [str]: literal containment. *)
Fixpoint str_in (needle hay : string) : bool :=
  (String.prefix needle hay ||
   match hay with
   | EmptyString => false
   | String _ r => str_in needle r
   end)%bool.

(** [repr] of a list of strings free of quotes and escapes. *)
Definition repr_str (s : string) : string := "'" +:+ s +:+ "'".
Definition repr_list (l : list string) : string :=
  "[" +:+ String.concat ", " (map repr_str l) +:+ "]".

(** ** Exceptions, processes, events *)

Inductive Exn : Type :=
| FileNotFoundError (filename : string)
| FileExistsError (message : string)
| CalledProcessError (returncode : Z) (cmd : list string)
| SystemExit (code : Z).

(** [except Exception] does not catch [SystemExit]. *)
Definition is_Exception (e : Exn) : bool :=
  match e with SystemExit _ => false | _ => true end.

Definition is_CalledProcessError (e : Exn) : bool :=
  match e with CalledProcessError _ _ => true | _ => false end.

Definition is_CalledProcessError_or_FileNotFoundError (e : Exn) : bool :=
  match e with
  | CalledProcessError _ _ | FileNotFoundError _ => true
  | _ => false
  end.

(** [str(e)]; the wording for a child killed by a signal is not modelled. *)
Definition str_exn (e : Exn) : string :=
  match e with
  | FileNotFoundError f =>
      "[Errno 2] No such file or directory: " +:+ repr_str f
  | FileExistsError m => m
  | CalledProcessError rc cmd =>
      "Command '" +:+ repr_list cmd +:+ "' returned non-zero exit status "
        +:+ pretty rc +:+ "."
  | SystemExit c => pretty c
  end.

(** What [Popen] is given. *)
Record Invocation : Type := {
  argv : list string;
  env : gmap string string;
  cwd : string;
  input : option string
}.

(** What a finished child leaves behind. *)
Record Completed : Type := {
  returncode : Z;
  stdout : string;
  stderr : string
}.

(** The effects of the harness that the outside can observe. *)
Inductive Event : Type :=
| Print (line : string)
| Mkdtemp (path : string)
| Makedirs (path : string)
| WriteFile (path : string) (content : string)
| Rmtree (path : string)
| CheckCall (cmd : list string) (rc : Z)
| Popen (inv : Invocation) (out : Completed)
| Sleep (seconds : Z).

(** ** The host

    Everything the harness does not decide: the state of the processes
    outside it ([Ext]: the debugger daemon, the debuggees, the random name
    generator of [tempfile]), what the debugger answers to an invocation,
    which commands are on the PATH, what exit status another tool returns,
    and the values Python computes at import time. *)
Record Host : Type := {
  Ext : Type;
  debugger : Invocation → Ext → Completed * Ext;
  which : string → bool;
  tool : list string → Ext → Z * Ext;
  rng : Ext → string * Ext;
  PROJECT_ROOT : string;
  PYTHON : string;
  gettempdir : string;
  environ : gmap string string
}.

(** ** Worlds and the monad *)

Inductive Res (A : Type) : Type :=
| Ret (a : A)
| Raise (e : Exn).
Arguments Ret {A} a.
Arguments Raise {A} e.

Section Harness.
Context (h : Host).

(** [trace] lists the effects newest first. *)
Record World : Type := {
  fs : gset string;
  ext : Ext h;
  trace : list Event
}.

Definition M (A : Type) : Type := World → Res A * World.

Definition ret {A} (a : A) : M A := λ w, (Ret a, w).

Definition bind {A B} (m : M A) (f : A → M B) : M B :=
  λ w, match m w with
       | (Ret a, w') => f a w'
       | (Raise e, w') => (Raise e, w')
       end.

Definition raise {A} (e : Exn) : M A := λ w, (Raise e, w).

(** [try: body except <classes> as e: handler e]. *)
Definition try_except {A} (catches : Exn → bool) (body : M A)
    (handler : Exn → M A) : M A :=
  λ w, match body w with
       | (Ret a, w') => (Ret a, w')
       | (Raise e, w') => if catches e then handler e w' else (Raise e, w')
       end.

(** [try: body finally: cleanup]: the cleanup runs on every path, and what
    it raises replaces the outcome of the body. *)
Definition try_finally {A} (body : M A) (cleanup : M unit) : M A :=
  λ w, match body w with
       | (r, w') =>
           match cleanup w' with
           | (Ret _, w'') => (r, w'')
           | (Raise e, w'') => (Raise e, w'')
           end
       end.

Definition emit (e : Event) : M unit :=
  λ w, (Ret tt, {| fs := fs w; ext := ext w; trace := e :: trace w |}).

End Harness.

Arguments ret {h A} a.
Arguments bind {h A B} m f.
Arguments raise {h A} e.
Arguments try_except {h A} catches body handler.
Arguments try_finally {h A} body cleanup.
Arguments emit {h} e.
Arguments fs {h} w.
Arguments ext {h} w.
Arguments trace {h} w.

Declare Scope harness_scope.
Notation "x ← m ; k" := (bind m (λ x, k))
  (at level 20, m at level 100, k at level 200, only parsing) : harness_scope.
Notation "' p ← m ; k" := (bind m (λ x, match x with p => k end))
  (at level 20, p pattern, m at level 100, k at level 200, only parsing)
  : harness_scope.
Notation "m ;; k" := (bind m (λ _, k))
  (at level 100, k at level 200, right associativity) : harness_scope.
Delimit Scope harness_scope with H.
Bind Scope harness_scope with M.
Open Scope harness_scope.

(** ** The Python library calls the harness makes *)

Section Library.
Context {h : Host}.

(** [os.path.exists]. *)
Definition os_path_exists (p : string) : M h bool :=
  λ w, (Ret (bool_decide (p ∈ fs w)), w).

(** [os.makedirs(p, exist_ok=True)]: the directory and its missing
    ancestors are created, and a directory already there is no error. *)
Definition os_makedirs (p : string) : M h unit :=
  λ w, (Ret tt, {| fs := fs w ∪ list_to_set (p :: parents p);
                   ext := ext w;
                   trace := Makedirs p :: trace w |}).

(** [tempfile.TMP_MAX]. *)
Definition TMP_MAX : nat := 100 * 100.

(** The loop of [tempfile.mkdtemp]: draw a name, take it unless the path
    exists, give up after [TMP_MAX] draws. *)
Fixpoint mkdtemp_pick (fuel : nat) (dir prefix : string) (paths : gset string)
    (e : Ext h) : option string * Ext h :=
  match fuel with
  | O => (None, e)
  | S fuel' =>
      let '(name, e') := rng h e in
      let file := path_join dir (prefix +:+ name) in
      if bool_decide (file ∈ paths) then mkdtemp_pick fuel' dir prefix paths e'
      else (Some file, e')
  end.

(** [tempfile.mkdtemp(prefix=...)]. *)
Definition tempfile_mkdtemp (prefix : string) : M h string :=
  λ w, match mkdtemp_pick TMP_MAX (gettempdir h) prefix (fs w) (ext w) with
       | (Some file, e') =>
           (Ret file, {| fs := fs w ∪ {[ file ]};
                         ext := e';
                         trace := Mkdtemp file :: trace w |})
       | (None, e') =>
           (Raise (FileExistsError "No usable temporary directory name found"),
            {| fs := fs w; ext := e'; trace := trace w |})
       end.

(** [with open(path, "w") as f: f.write(content)]. *)
Definition write_file (path content : string) : M h unit :=
  λ w, (Ret tt, {| fs := fs w ∪ {[ path ]};
                   ext := ext w;
                   trace := WriteFile path content :: trace w |}).

(** [shutil.rmtree(p)] with its default [ignore_errors=False]: the tree is
    removed, and a path that does not exist raises. *)
Definition shutil_rmtree (p : string) : M h unit :=
  λ w, if bool_decide (p ∈ fs w)
       then (Ret tt, {| fs := filter (λ q, ¬ under p q) (fs w);
                        ext := ext w;
                        trace := Rmtree p :: trace w |})
       else (Raise (FileNotFoundError p), w).

(** [subprocess.check_call(cmd)]: a command that is not on the PATH raises
    [FileNotFoundError], a non-zero exit status [CalledProcessError]. *)
Definition subprocess_check_call (cmd : list string) : M h unit :=
  λ w, if which h (hd "" cmd)
       then let '(rc, e') := tool h cmd (ext w) in
            let w' := {| fs := fs w; ext := e';
                         trace := CheckCall cmd rc :: trace w |} in
            if rc =? 0 then (Ret tt, w')
            else (Raise (CalledProcessError rc cmd), w')
       else (Raise (FileNotFoundError (hd "" cmd)), w).

(** [subprocess.Popen(...)] followed by [communicate]: the child runs to
    its end; an executable that does not exist raises. *)
Definition subprocess_Popen_communicate (inv : Invocation) : M h Completed :=
  λ w, if bool_decide (hd "" (argv inv) ∈ fs w)
       then let '(c, e') := debugger h inv (ext w) in
            (Ret c, {| fs := fs w; ext := e';
                       trace := Popen inv c :: trace w |})
       else (Raise (FileNotFoundError (hd "" (argv inv))), w).

Definition time_sleep (seconds : Z) : M h unit := emit (Sleep seconds).

Definition sys_exit {A} (code : Z) : M h A := raise (SystemExit code).

End Library.

(** ** run_tests.py *)

Section RunTests.
Context {h : Host}.

Definition DEBUGGER_BIN : string :=
  path_join_all (PROJECT_ROOT h) ["target"; "release"; "debugger"].
Definition TEST_DIR : string :=
  path_join_all (PROJECT_ROOT h) ["tests"; "e2e"].
Definition GCC : string := "gcc".
Definition RUSTC : string := "rustc".
Definition GO : string := "go".

Definition log (msg : string) : M h unit := emit (Print ("[TEST] " +:+ msg)).

Definition compile_c (source output : string) : M h unit :=
  let cmd := [GCC; "-g"; "-o"; output; source] in
  log ("Compiling C: " +:+ String.concat " " cmd);;
  subprocess_check_call cmd.

Definition compile_rust (source output : string) : M h unit :=
  let cmd := [RUSTC; "-g"; "-o"; output; source] in
  log ("Compiling Rust: " +:+ String.concat " " cmd);;
  subprocess_check_call cmd.

Definition compile_go (source output : string) : M h unit :=
  let cmd := [GO; "build"; "-gcflags=all=-N -l"; "-o"; output; source] in
  log ("Compiling Go: " +:+ String.concat " " cmd);;
  subprocess_check_call cmd.

Definition config_content (python_path : string) : string :=
  String.concat nl
    [ "";
      "[adapters.debugpy]";
      "path = " +:+ dq +:+ python_path +:+ dq;
      "args = [" +:+ dq +:+ "-m" +:+ dq +:+ ", " +:+ dq +:+ "debugpy.adapter"
        +:+ dq +:+ "]";
      "";
      "[adapters.go]";
      "path = " +:+ dq +:+ "dlv" +:+ dq;
      "args = [" +:+ dq +:+ "dap" +:+ dq +:+ "]";
      "";
      "[defaults]";
      "adapter = " +:+ dq +:+ "lldb-dap" +:+ dq;
      "";
      "[timeouts]";
      "dap_initialize_secs = 10";
      "dap_request_secs = 30";
      "await_default_secs = 60";
      "" ].

Definition setup_config : M h string :=
  config_dir ← tempfile_mkdtemp "debugger-test-config-";
  let app_config_dir := path_join config_dir "debugger-cli" in
  os_makedirs app_config_dir;;
  let config_path := path_join app_config_dir "config.toml" in
  let python_path := PYTHON h in
  write_file config_path (config_content python_path);;
  ret config_dir.

(** Truth value of a [str]. *)
Definition str_truthy (s : string) : bool := negb (String.eqb s "").

(** Truth value of a list that may be [None]. *)
Definition args_truthy (l : option (list string)) : bool :=
  match l with Some (_ :: _) => true | _ => false end.

Definition run_debugger_command (cmd : list string) (config_dir : string)
    (input_cmds : option string) : M h (bool * string * string) :=
  let full_cmd := ([DEBUGGER_BIN] ++ cmd)%list in
  log ("Running: " +:+ String.concat " " full_cmd);;
  let env := environ h in
  env ← (if str_truthy config_dir then
           let env := <[ "XDG_CONFIG_HOME" := config_dir ]> env in
           let env := <[ "XDG_RUNTIME_DIR" := path_join config_dir "runtime" ]> env in
           os_makedirs (default "" (env !! "XDG_RUNTIME_DIR"));;
           ret env
         else ret env);
  process ← subprocess_Popen_communicate
    {| argv := full_cmd; env := env; cwd := TEST_DIR; input := input_cmds |};
  if negb (returncode process =? 0) then
    log ("Command failed with code " +:+ pretty (returncode process));;
    log ("STDOUT: " +:+ stdout process);;
    log ("STDERR: " +:+ stderr process);;
    ret (false, stdout process, stderr process)
  else
    ret (true, stdout process, stderr process).

(** A [return] inside the [except] clause leaves the function: the
    compile step yields [inr result] for it and [inl binary_path] to go on. *)
Definition test_program (name source_file : string)
    (compiler_func : option (string → string → M h unit))
    (expected_output_substr config_dir : string)
    (adapter_args : option (list string)) : M h bool :=
  log ("=== Testing " +:+ name +:+ " ===");;
  let binary_path := path_join TEST_DIR name in
  let source_path := path_join TEST_DIR source_file in
  built ← match compiler_func with
          | Some compiler =>
              try_except is_Exception
                (compiler source_path binary_path;; ret (inl binary_path))
                (λ e, log ("Compilation failed: " +:+ str_exn e);;
                      ret (inr false))
          | None => ret (inl source_path)
          end;
  match built with
  | inr result => ret result
  | inl binary_path =>
    run_debugger_command ["stop"] config_dir None;;
    log "Starting debugger...";;
    let start_cmd := ["start"; binary_path; "--stop-on-entry"] in
    let start_cmd := if args_truthy adapter_args
                     then (start_cmd ++ default [] adapter_args)%list
                     else start_cmd in
    '(ok, out, err) ← run_debugger_command start_cmd config_dir None;
    if negb ok then log "Failed to start debugger";; ret false else
    log "Setting breakpoint...";;
    '(ok, out, err) ← run_debugger_command ["breakpoint"; "add"; "main"] config_dir None;
    if negb ok then log "Failed to set breakpoint";; ret false else
    log "Continuing execution from entry...";;
    '(ok, out, err) ← run_debugger_command ["continue"] config_dir None;
    if negb ok then log ("Failed to continue from entry: " +:+ err);; ret false else
    log "Waiting for breakpoint stop...";;
    '(ok, out, err) ← run_debugger_command ["await"] config_dir None;
    if negb ok then ret false else
    log ("Await output:" +:+ nl +:+ out);;
    log "Checking threads...";;
    '(ok, out_threads, err) ← run_debugger_command ["threads"] config_dir None;
    log ("Threads:" +:+ nl +:+ out_threads);;
    log "Inspecting locals...";;
    '(ok, out_locals, err) ← run_debugger_command ["locals"] config_dir None;
    if negb ok then ret false else
    log ("Locals:" +:+ nl +:+ out_locals);;
    (if (negb (str_in "x" out_locals) && negb (str_in "y" out_locals))%bool
     then log "WARNING: Locals x/y not found" else ret tt);;
    log "Continuing to finish...";;
    '(ok, out, err) ← run_debugger_command ["continue"] config_dir None;
    if negb ok then ret false else
    log "Waiting for program exit...";;
    '(ok, out, err) ← run_debugger_command ["await"] config_dir None;
    log "Checking output...";;
    time_sleep 1;;
    '(ok, out_prog, err) ← run_debugger_command ["output"] config_dir None;
    log ("Program Output:" +:+ nl +:+ out_prog);;
    if negb (str_in expected_output_substr out_prog) then
      log ("FAILED: Expected output '" +:+ expected_output_substr +:+ "' not found.");;
      ret false
    else
    log ("SUCCESS: " +:+ name +:+ " passed.");;
    ret true
  end.

Definition input_script : string :=
  String.concat nl
    [ "break scenarios.py:8"; "continue"; "continue"; "bt 5"; "locals";
      "break remove --all"; "continue"; "await"; "output" ].

(** The list [commands] that the source builds first is never used. *)
Definition test_complex_python (config_dir : string) : M h bool :=
  log "=== Testing Complex Python App ===";;
  let app_dir := path_join_all (PROJECT_ROOT h) ["tests"; "complex_app"] in
  let main_py := path_join app_dir "main.py" in
  found ← os_path_exists main_py;
  if negb found then log ("Complex app not found at " +:+ main_py);; ret false else
  run_debugger_command ["stop"] config_dir None;;
  log "Starting debugger on complex app...";;
  let cmd := ["start"; main_py; "--adapter"; "debugpy"; "--stop-on-entry"] in
  '(ok, out, err) ← run_debugger_command cmd config_dir None;
  if negb ok then ret false else
  '(ok, out, err) ← run_debugger_command [] config_dir (Some input_script);
  if negb (str_in "Complex App Finished" out) then
    log "FAILED: Did not see 'Complex App Finished'";;
    log ("Output: " +:+ out);;
    ret false
  else
  log "SUCCESS: Complex Python App passed basic run.";;
  ret true.

Definition check_debugpy : M h bool :=
  try_except is_CalledProcessError
    (subprocess_check_call [PYTHON h; "-c"; "import debugpy"];; ret true)
    (λ _, ret false).

Definition check_delve : M h bool :=
  try_except is_CalledProcessError_or_FileNotFoundError
    (subprocess_check_call ["dlv"; "version"];; ret true)
    (λ _, ret false).

Definition hello_world_py : string :=
  String.concat nl
    [ "";
      "import sys";
      "";
      "def main():";
      "    x = 10";
      "    y = 20";
      "    print(f" +:+ dq +:+ "Hello from Python! Sum is {x+y}" +:+ dq +:+ ")";
      "    return 0";
      "";
      "if __name__ == " +:+ dq +:+ "__main__" +:+ dq +:+ ":";
      "    sys.exit(main())";
      "" ].

(** The cleanup of [main]'s [finally] clause. *)
Definition destroy (config_dir : string) : M h unit :=
  shutil_rmtree config_dir.

(** The body of [main]'s [try], yielding the final value of [failed]. *)
Definition main_try (config_dir : string) : M h bool :=
  let failed := false in
  passed ← test_program "test_c" "hello_world.c" (Some compile_c)
             "Hello from C! Sum is 30" config_dir None;
  let failed := if negb passed then true else failed in
  passed ← test_program "test_rs" "hello_world.rs" (Some compile_rust)
             "Hello from Rust! Sum is 30" config_dir None;
  let failed := if negb passed then true else failed in
  has_debugpy ← check_debugpy;
  failed ← (if has_debugpy then
              let py_test_file := path_join TEST_DIR "hello_world.py" in
              found ← os_path_exists py_test_file;
              (if negb found then write_file py_test_file hello_world_py
               else ret tt);;
              passed ← test_program "test_py" "hello_world.py" None
                         "Hello from Python! Sum is 30" config_dir
                         (Some ["--adapter"; "debugpy"]);
              ret (if negb passed then true else failed)
            else
              log "Skipping Python test (debugpy not found)";;
              ret failed);
  has_delve ← check_delve;
  failed ← (if has_delve then
              let go_test_file := path_join TEST_DIR "hello_world.go" in
              found ← os_path_exists go_test_file;
              if found then
                passed ← test_program "test_go" "hello_world.go" (Some compile_go)
                           "Hello from Go! Sum is 30" config_dir
                           (Some ["--adapter"; "go"]);
                ret (if negb passed then true else failed)
              else
                log "Skipping Go test (hello_world.go not found)";;
                ret failed
            else
              log "Skipping Go test (dlv not found)";;
              ret failed);
  has_debugpy ← check_debugpy;
  failed ← (if has_debugpy then
              passed ← test_complex_python config_dir;
              ret (if negb passed then true else failed)
            else ret failed);
  ret failed.

Definition main : M h unit :=
  found ← os_path_exists DEBUGGER_BIN;
  if negb found then
    log ("Debugger binary not found at " +:+ DEBUGGER_BIN
         +:+ ". Please build release first.");;
    sys_exit 1
  else
  config_dir ← setup_config;
  log ("Created temp config dir at " +:+ config_dir);;
  failed ← try_finally (main_try config_dir) (destroy config_dir);
  if failed then sys_exit 1
  else
    log "All tests passed!";;
    sys_exit 0.

(** The exit code of the Python process: the argument of [sys.exit], 1 for
    an exception nobody caught, 0 when the script runs off its end. *)
Definition exit_status {A} (r : Res A) : Z :=
  match r with
  | Ret _ => 0
  | Raise (SystemExit code) => code
  | Raise _ => 1
  end.

End RunTests.

Arguments exit_status {A} r.
Arguments DEBUGGER_BIN h : clear implicits.
Arguments TEST_DIR h : clear implicits.

(** ** A host to run the harness on

    A small debugger daemon that follows the session protocol, used to
    evaluate the harness on concrete inputs.  Its faults are parameters:
    the commands that are on the PATH, the exit status of the other
    tools, and the debugger commands that fail. *)
Module Demo.

Inductive Session : Type :=
| Idle
| AtEntry (target : string) (breakpoint : bool)
| Running (target : string) (breakpoint : bool)
| AtBreakpoint (target : string)
| Exited (target : string).

Definition done (out : string) : Completed :=
  {| returncode := 0; stdout := out; stderr := "" |}.
Definition failure (err : string) : Completed :=
  {| returncode := 1; stdout := ""; stderr := err |}.

(** What each debuggee prints. *)
Definition program_output (target : string) : string :=
  if str_in "test_c" target then "Hello from C! Sum is 30" +:+ nl
  else if str_in "test_rs" target then "Hello from Rust! Sum is 30" +:+ nl
  else if str_in "hello_world.py" target then "Hello from Python! Sum is 30" +:+ nl
  else if str_in "test_go" target then "Hello from Go! Sum is 30" +:+ nl
  else if str_in "complex_app" target then "Complex App Finished" +:+ nl
  else "".

(** The daemon: one command, one transition.  A debuggee that is continued
    from its breakpoint runs to its end at once, so the [await] that
    follows finds the session already terminated and fails. *)
Definition daemon (cmd : list string) (script : option string) (s : Session)
    : Completed * Session :=
  match cmd, s with
  | ["stop"], Idle => (failure "no session is active", Idle)
  | ["stop"], _ => (done "stopped", Idle)
  | "start" :: target :: _, _ => (done "started", AtEntry target false)
  | ["breakpoint"; "add"; _], AtEntry t _ => (done "breakpoint 1", AtEntry t true)
  | ["continue"], AtEntry t b => (done "continuing", Running t b)
  | ["continue"], AtBreakpoint t => (done "continuing", Exited t)
  | ["await"], Running t true => (done "stopped at breakpoint", AtBreakpoint t)
  | ["await"], Running t false => (done "exited", Exited t)
  | ["threads"], AtBreakpoint _ => (done "thread 1", s)
  | ["locals"], AtBreakpoint _ => (done ("x = 10" +:+ nl +:+ "y = 20"), s)
  | ["output"], Exited t => (done (program_output t), s)
  | [], AtEntry t _ =>
      match script with
      | Some _ => (done (program_output t), Exited t)
      | None => (failure "no input", s)
      end
  | _, _ => (failure "command not valid in this state", s)
  end.

(** The host state: the session of the daemon and the number of names
    [tempfile] has drawn. *)
Definition State : Type := Session * nat.

Definition host (on_path : string → bool) (tool_rc : list string → Z)
    (broken : list string → bool) : Host :=
  {| Ext := State;
     debugger := λ inv '(s, n),
       if broken (tail (argv inv)) then (failure "broken", (s, n))
       else let '(c, s') := daemon (tail (argv inv)) (input inv) s in (c, (s', n));
     which := on_path;
     tool := λ cmd e, (tool_rc cmd, e);
     rng := λ '(s, n), ("k" +:+ pretty (Z.of_nat n), (s, S n));
     PROJECT_ROOT := "/repo";
     PYTHON := "/usr/bin/python3";
     gettempdir := "/tmp";
     environ := {[ "HOME" := "/root" ]} |}.

(** A host with every tool installed and nothing broken. *)
Definition healthy : Host := host (λ _, true) (λ _, 0) (λ _, false).

(** The repository checked out and built, nothing else. *)
Definition checkout : gset string :=
  {[ "/repo/target/release/debugger";
     "/repo/tests/e2e/hello_world.c";
     "/repo/tests/e2e/hello_world.rs";
     "/repo/tests/e2e/hello_world.go";
     "/repo/tests/complex_app/main.py" ]}.

Definition start (hst : Host) (paths : gset string) (e : Ext hst) : World hst :=
  {| fs := paths; ext := e; trace := [] |}.

(** The healthy host at the start of a run. *)
Definition boot : World healthy := start healthy checkout (Idle, 0%nat).

(** The healthy host, but the [locals] command of the debugger fails. *)
Definition locals_broken : Host :=
  host (λ _, true) (λ _, 0) (λ cmd, bool_decide (cmd = ["locals"])).
Definition boot_locals_broken : World locals_broken :=
  start locals_broken checkout (Idle, 0%nat).

(** The healthy host, but no C compiler is installed. *)
Definition without_gcc : Host :=
  host (λ c, negb (String.eqb c "gcc")) (λ _, 0) (λ _, false).
Definition boot_without_gcc : World without_gcc :=
  start without_gcc checkout (Idle, 0%nat).


(** The healthy host, but the [output] command of the debugger fails and
    prints nothing. *)
Definition wrong_output : Host :=
  host (λ _, true) (λ _, 0) (λ cmd, bool_decide (cmd = ["output"])).
Definition boot_wrong_output : World wrong_output :=
  start wrong_output checkout (Idle, 0%nat).

End Demo.

(** ** Observing a run *)

(** A child process of the harness, if the event is one. *)
Definition popen_of (e : Event) : option (Invocation * Completed) :=
  match e with Popen inv c => Some (inv, c) | _ => None end.

(** The child processes of a trace with what they returned, oldest first. *)
Definition calls (t : list Event) : list (Invocation * Completed) :=
  rev (omap popen_of t).

(** The directories [tempfile.mkdtemp] made, oldest first. *)
Definition provisioned (t : list Event) : list string :=
  rev (omap (λ e, match e with Mkdtemp p => Some p | _ => None end) t).

(** The directory trees removed, oldest first. *)
Definition removed (t : list Event) : list string :=
  rev (omap (λ e, match e with Rmtree p => Some p | _ => None end) t).

(** The targets of the [start] commands with the configuration root each
    session was given, oldest first. *)
Definition sessions (t : list Event) : list (string * option string) :=
  omap (λ ic, match tail (argv ic.1) with
              | "start" :: target :: _ =>
                  Some (target, env ic.1 !! "XDG_CONFIG_HOME")
              | _ => None
              end) (calls t).

(** An event of a scenario that runs in the environment rooted at [d]:
    every child is pointed at [d] and at its [runtime] directory, and the
    scenario neither provisions nor removes a directory tree. *)
Definition in_env (d : string) (e : Event) : Prop :=
  match e with
  | Popen inv _ =>
      env inv !! "XDG_CONFIG_HOME" = Some d ∧
      env inv !! "XDG_RUNTIME_DIR" = Some (path_join d "runtime")
  | Mkdtemp _ | Rmtree _ => False
  | _ => True
  end.

(** A line of the transcript. *)
Definition is_print (e : Event) : Prop :=
  match e with Print _ => True | _ => False end.

(** What [run_debugger_command] hands to [Popen]. *)
Definition invocation (h : Host) (cmd : list string) (config_dir : string)
    (input_cmds : option string) : Invocation :=
  {| argv := DEBUGGER_BIN h :: cmd;
     env := if str_truthy config_dir
            then <[ "XDG_RUNTIME_DIR" := path_join config_dir "runtime" ]>
                   (<[ "XDG_CONFIG_HOME" := config_dir ]> (environ h))
            else environ h;
     cwd := TEST_DIR h;
     input := input_cmds |}.

(** The directories [run_debugger_command] makes sure of. *)
Definition runtime_dirs (config_dir : string) : gset string :=
  if str_truthy config_dir
  then list_to_set (path_join config_dir "runtime"
                      :: parents (path_join config_dir "runtime"))
  else ∅.

(** The events of one [run_debugger_command], newest first. *)
Definition command_events (h : Host) (cmd : list string) (config_dir : string)
    (input_cmds : option string) (c : Completed) : list Event :=
  ((if returncode c =? 0 then []
    else [ Print ("[TEST] STDERR: " +:+ stderr c);
           Print ("[TEST] STDOUT: " +:+ stdout c);
           Print ("[TEST] Command failed with code " +:+ pretty (returncode c)) ])
   ++ Popen (invocation h cmd config_dir input_cmds) c
   :: (if str_truthy config_dir
       then [Makedirs (path_join config_dir "runtime")] else [])
   ++ [Print ("[TEST] Running: " +:+ String.concat " " (DEBUGGER_BIN h :: cmd))])%list.

(** The commands of a trace with what each returned, oldest first. *)
Definition answers (t : list Event) : list (list string * Completed) :=
  map (λ ic, (tail (argv ic.1), ic.2)) (calls t).

(** Exit status zero. *)
Definition succeeded (c : Completed) : bool := returncode c =? 0.

(** The [start] command of [test_program]. *)
Definition start_command (binary_path : string)
    (adapter_args : option (list string)) : list string :=
  if args_truthy adapter_args
  then (["start"; binary_path; "--stop-on-entry"] ++ default [] adapter_args)%list
  else ["start"; binary_path; "--stop-on-entry"].

(** The sessions [test_program] can drive once the debuggee is built: the
    commands issued with what each returned, oldest first, and the value
    returned.  One case per [return] of the function. *)
Inductive session_of (start_cmd : list string) (expected : string)
    : list (list string * Completed) → bool → Prop :=
| start_failed c_stop c_start :
    succeeded c_start = false →
    session_of start_cmd expected
      [ (["stop"], c_stop); (start_cmd, c_start) ] false
| breakpoint_failed c_stop c_start c_bp :
    succeeded c_start = true → succeeded c_bp = false →
    session_of start_cmd expected
      [ (["stop"], c_stop); (start_cmd, c_start);
        (["breakpoint"; "add"; "main"], c_bp) ] false
| continue_failed c_stop c_start c_bp c_cont :
    succeeded c_start = true → succeeded c_bp = true →
    succeeded c_cont = false →
    session_of start_cmd expected
      [ (["stop"], c_stop); (start_cmd, c_start);
        (["breakpoint"; "add"; "main"], c_bp); (["continue"], c_cont) ] false
| await_failed c_stop c_start c_bp c_cont c_await :
    succeeded c_start = true → succeeded c_bp = true →
    succeeded c_cont = true → succeeded c_await = false →
    session_of start_cmd expected
      [ (["stop"], c_stop); (start_cmd, c_start);
        (["breakpoint"; "add"; "main"], c_bp); (["continue"], c_cont);
        (["await"], c_await) ] false
| locals_failed c_stop c_start c_bp c_cont c_await c_threads c_locals :
    succeeded c_start = true → succeeded c_bp = true →
    succeeded c_cont = true → succeeded c_await = true →
    succeeded c_locals = false →
    session_of start_cmd expected
      [ (["stop"], c_stop); (start_cmd, c_start);
        (["breakpoint"; "add"; "main"], c_bp); (["continue"], c_cont);
        (["await"], c_await); (["threads"], c_threads);
        (["locals"], c_locals) ] false
| finish_failed c_stop c_start c_bp c_cont c_await c_threads c_locals c_finish :
    succeeded c_start = true → succeeded c_bp = true →
    succeeded c_cont = true → succeeded c_await = true →
    succeeded c_locals = true → succeeded c_finish = false →
    session_of start_cmd expected
      [ (["stop"], c_stop); (start_cmd, c_start);
        (["breakpoint"; "add"; "main"], c_bp); (["continue"], c_cont);
        (["await"], c_await); (["threads"], c_threads);
        (["locals"], c_locals); (["continue"], c_finish) ] false
| verified c_stop c_start c_bp c_cont c_await c_threads c_locals c_finish
    c_exit c_output :
    succeeded c_start = true → succeeded c_bp = true →
    succeeded c_cont = true → succeeded c_await = true →
    succeeded c_locals = true → succeeded c_finish = true →
    session_of start_cmd expected
      [ (["stop"], c_stop); (start_cmd, c_start);
        (["breakpoint"; "add"; "main"], c_bp); (["continue"], c_cont);
        (["await"], c_await); (["threads"], c_threads);
        (["locals"], c_locals); (["continue"], c_finish);
        (["await"], c_exit); (["output"], c_output) ]
      (str_in expected (stdout c_output)).

(** An event of a build step: a line printed or a tool run. *)
Definition is_build_event (e : Event) : Prop :=
  match e with Print _ | CheckCall _ _ => True | _ => False end.

(** What [test_program] relies on in a compiler function: it prints and
    runs tools, leaves the paths alone, and raises nothing but
    [Exception]s. *)
Definition is_compiler {h : Host} (f : string → string → M h unit) : Prop :=
  ∀ source output (w : World h),
    ∃ r w' evs,
      f source output w = (r, w') ∧
      (∀ e, r = Raise e → is_Exception e = true) ∧
      trace w' = (evs ++ trace w)%list ∧
      Forall is_build_event evs ∧
      fs w' = fs w.

(** The debuggee [test_program] starts: the binary when there is a
    compiler, the source when there is none. *)
Definition debuggee {h : Host} {A} (name source_file : string)
    (compiler_func : option A) : string :=
  match compiler_func with
  | Some _ => path_join (TEST_DIR h) name
  | None => path_join (TEST_DIR h) source_file
  end.

(** [m], started in [w], returns [a] after the debugger commands [l],
    listed oldest first with what each returned. *)
Definition runs {h : Host} {A} (m : M h A) (w : World h) (a : A)
    (l : list (list string * Completed)) : Prop :=
  ∃ w' evs, m w = (Ret a, w') ∧ trace w' = (evs ++ trace w)%list ∧
            answers evs = l.

(** The sessions [test_complex_python] can drive. *)
Inductive complex_session_of (start_cmd : list string)
    : list (list string * Completed) → bool → Prop :=
| complex_start_failed c_stop c_start :
    succeeded c_start = false →
    complex_session_of start_cmd
      [ (["stop"], c_stop); (start_cmd, c_start) ] false
| complex_ran c_stop c_start c_script :
    succeeded c_start = true →
    complex_session_of start_cmd
      [ (["stop"], c_stop); (start_cmd, c_start); ([], c_script) ]
      (str_in "Complex App Finished" (stdout c_script)).

(** What a scenario function did and returned: nothing at all and [False]
    (the build step raised, or the application is missing), or a session. *)
Definition scenario_outcome (expected : string)
    (l : list (list string * Completed)) (b : bool) : Prop :=
  (l = [] ∧ b = false) ∨ ∃ start_cmd, session_of start_cmd expected l b.



(** Two lists of answered commands that agree everywhere but at the
    positions [K]. *)
Definition agree_except (K : list nat)
    (l1 l2 : list (list string * Completed)) : Prop :=
  ∀ i : nat, i ∉ K → l1 !! i = l2 !! i.

(** The [start] command of [test_complex_python]. *)
Definition complex_start_command (h : Host) : list string :=
  ["start";
   path_join (path_join_all (PROJECT_ROOT h) ["tests"; "complex_app"]) "main.py";
   "--adapter"; "debugpy"; "--stop-on-entry"].

(** From [w] to [w'] only events of the environment rooted at [d] were
    added, and no path was removed. *)
Definition env_step {h : Host} (d : string) (w w' : World h) : Prop :=
  ∃ evs, trace w' = (evs ++ trace w)%list ∧ Forall (in_env d) evs ∧
         fs w ⊆ fs w'.

(** With the binary in place [m] stays within the environment rooted at
    [d], and the only exception it lets through is that of a Python
    interpreter that is not there. *)
Definition safe {h : Host} {A} (d : string) (m : M h A) : Prop :=
  ∀ w, DEBUGGER_BIN h ∈ fs w →
    ∃ r w', m w = (r, w') ∧ env_step d w w' ∧
            (∀ e, r = Raise e → e = FileNotFoundError (PYTHON h)).

(** ** The Run Coordinator of the specification

    [run_all] follows the words of the specification: the scenarios are
    iterated one after the other, each after its capability probe, the
    Run Report collects one entry per scenario, the environment is torn
    down whatever happened, and the exit code is read off the report.  The
    source has no report: [main] keeps one flag.  The two are compared
    below. *)

Inductive Outcome : Type := Passed | Failed | Skipped.

#[global] Instance Outcome_eq_dec : EqDecision Outcome.
Proof. solve_decision. Defined.

Section Coordinator.
Context {h : Host}.

Record Scenario : Type := {
  sc_name : string;
  sc_probe : M h bool;
  sc_run : string → M h bool
}.

Definition scenario_c : Scenario :=
  {| sc_name := "test_c";
     sc_probe := ret true;
     sc_run := λ config_dir,
       test_program "test_c" "hello_world.c" (Some compile_c)
         "Hello from C! Sum is 30" config_dir None |}.

Definition scenario_rs : Scenario :=
  {| sc_name := "test_rs";
     sc_probe := ret true;
     sc_run := λ config_dir,
       test_program "test_rs" "hello_world.rs" (Some compile_rust)
         "Hello from Rust! Sum is 30" config_dir None |}.

Definition scenario_py : Scenario :=
  {| sc_name := "test_py";
     sc_probe :=
       has_debugpy ← check_debugpy;
       if has_debugpy then ret true
       else log "Skipping Python test (debugpy not found)";; ret false;
     sc_run := λ config_dir,
       let py_test_file := path_join (TEST_DIR h) "hello_world.py" in
       found ← os_path_exists py_test_file;
       (if negb found then write_file py_test_file hello_world_py else ret tt);;
       test_program "test_py" "hello_world.py" None
         "Hello from Python! Sum is 30" config_dir
         (Some ["--adapter"; "debugpy"]) |}.

Definition scenario_go : Scenario :=
  {| sc_name := "test_go";
     sc_probe :=
       has_delve ← check_delve;
       if has_delve then
         found ← os_path_exists (path_join (TEST_DIR h) "hello_world.go");
         if found then ret true
         else log "Skipping Go test (hello_world.go not found)";; ret false
       else log "Skipping Go test (dlv not found)";; ret false;
     sc_run := λ config_dir,
       test_program "test_go" "hello_world.go" (Some compile_go)
         "Hello from Go! Sum is 30" config_dir (Some ["--adapter"; "go"]) |}.

Definition scenario_complex : Scenario :=
  {| sc_name := "complex_python";
     sc_probe := check_debugpy;
     sc_run := test_complex_python |}.

Definition scenarios : list Scenario :=
  [scenario_c; scenario_rs; scenario_py; scenario_go; scenario_complex].

Definition RunReport : Type := list (string * Outcome).

(** One scenario: skipped when its probe says no, otherwise run. *)
Definition run_scenario (sc : Scenario) (config_dir : string) : M h Outcome :=
  capable ← sc_probe sc;
  if capable then
    passed ← sc_run sc config_dir;
    ret (if passed then Passed else Failed)
  else ret Skipped.

(** The scenarios in order; an exception ends the iteration with the
    report as far as it got. *)
Fixpoint run_scenarios (scs : list Scenario) (config_dir : string)
    (report : RunReport) (w : World h) : RunReport * Res unit * World h :=
  match scs with
  | [] => (report, Ret tt, w)
  | sc :: rest =>
      match run_scenario sc config_dir w with
      | (Ret o, w') =>
          run_scenarios rest config_dir (report ++ [(sc_name sc, o)])%list w'
      | (Raise e, w') => (report, Raise e, w')
      end
  end.

Definition any_failed (report : RunReport) : bool :=
  existsb (λ entry, bool_decide (entry.2 = Failed)) report.

(** The names of the scenarios of a run, in their order. *)
Definition scenario_names : list string :=
  ["test_c"; "test_rs"; "test_py"; "test_go"; "complex_python"].

(** Every scenario has its entry, and none of them failed. *)
Definition all_passed_or_skipped (report : RunReport) : bool :=
  (bool_decide (map fst report = scenario_names)
   && negb (any_failed report))%bool.

(** A report with its skips counted as passes. *)
Definition skips_as_passes (report : RunReport) : RunReport :=
  map (λ entry, (entry.1, match entry.2 with Skipped => Passed | o => o end))
      report.

Definition run_all (w : World h) : RunReport * Res unit * World h :=
  if negb (bool_decide (DEBUGGER_BIN h ∈ fs w)) then
    let '(r, w') :=
      (log ("Debugger binary not found at " +:+ DEBUGGER_BIN h
            +:+ ". Please build release first.");;
       sys_exit 1) w in
    ([], r, w')
  else
    match setup_config w with
    | (Raise e, w1) => ([], Raise e, w1)
    | (Ret config_dir, w1) =>
        let '(_, w2) := log ("Created temp config dir at " +:+ config_dir) w1 in
        let '(report, r, w3) := run_scenarios scenarios config_dir [] w2 in
        match destroy config_dir w3 with
        | (Raise e, w4) => (report, Raise e, w4)
        | (Ret _, w4) =>
            match r with
            | Raise e => (report, Raise e, w4)
            | Ret _ =>
                let '(r', w5) :=
                  (if any_failed report then sys_exit 1
                   else log "All tests passed!";; sys_exit 0) w4 in
                (report, r', w5)
            end
        end
    end.

End Coordinator.

(** ** What a run can do

    The observations below speak of a whole run: of every event [main]
    adds to the trace, and of what [test_program] reads of the answers it
    gets. *)

(** Whatever [m] adds to the trace satisfies [P], whether it returns or
    raises. *)
Definition emits {h : Host} {A} (P : Event → Prop) (m : M h A) : Prop :=
  ∀ w, ∃ evs, trace (snd (m w)) = (evs ++ trace w)%list ∧ Forall P evs.

(** The debugger commands of the harness: a subcommand without standard
    input, a [start] that stops on entry, or no subcommand at all and the
    script of the complex application on standard input. *)
Definition debugger_command (cmd : list string) (stdin : option string)
    : Prop :=
  (stdin = None ∧
   (cmd ∈ [ ["stop"]; ["breakpoint"; "add"; "main"]; ["continue"]; ["await"];
            ["threads"]; ["locals"]; ["output"] ] ∨
    ∃ target rest, cmd = "start" :: target :: rest ∧ "--stop-on-entry" ∈ rest)) ∨
  (cmd = [] ∧ stdin = Some input_script).

(** The tools of the harness: the three compilers and the two probes. *)
Definition tool_command (h : Host) (cmd : list string) : Prop :=
  (∃ source output,
     cmd = [GCC; "-g"; "-o"; output; source] ∨
     cmd = [RUSTC; "-g"; "-o"; output; source] ∨
     cmd = [GO; "build"; "-gcflags=all=-N -l"; "-o"; output; source]) ∨
  cmd = ["dlv"; "version"] ∨
  cmd = [PYTHON h; "-c"; "import debugpy"].

(** What a run of the harness can do, event by event. *)
Definition harness_event (h : Host) (e : Event) : Prop :=
  match e with
  | Print line => String.prefix "[TEST] " line = true
  | Popen inv _ =>
      ∃ cmd, argv inv = DEBUGGER_BIN h :: cmd ∧ cwd inv = TEST_DIR h ∧
             debugger_command cmd (input inv)
  | CheckCall cmd _ => tool_command h cmd
  | Sleep seconds => seconds = 1
  | WriteFile p content =>
      (p = path_join (TEST_DIR h) "hello_world.py" ∧ content = hello_world_py) ∨
      (∃ d, p = path_join (path_join d "debugger-cli") "config.toml" ∧
            content = config_content (PYTHON h))
  | Makedirs p =>
      ∃ d, p = path_join d "runtime" ∨ p = path_join d "debugger-cli"
  | Mkdtemp p =>
      ∃ name, p = path_join (gettempdir h) ("debugger-test-config-" +:+ name)
  | Rmtree p => True
  end.

(** A directory made. *)
Definition is_makedirs (e : Event) : Prop :=
  match e with Makedirs _ => True | _ => False end.


(** The demonstration host without its Python interpreter. *)
Definition without_python : Host :=
  Demo.host (λ c, negb (String.eqb c "/usr/bin/python3")) (λ _, 0) (λ _, false).
Definition boot_without_python : World without_python :=
  Demo.start without_python Demo.checkout (Demo.Idle, 0%nat).

(** Started with the path [p] in place, [m] adds only events of [P] to the
    trace and leaves [p] in place. *)
Definition keeps {h : Host} {A} (p : string) (P : Event → Prop) (m : M h A)
    : Prop :=
  ∀ w, p ∈ fs w →
    ∃ evs, trace (snd (m w)) = (evs ++ trace w)%list ∧ Forall P evs ∧
           p ∈ fs (snd (m w)).

(** An event that does not write the file [p]. *)
Definition spares (p : string) (e : Event) : Prop :=
  match e with WriteFile q _ => q ≠ p | _ => True end.

(** The healthy host with the Python debuggee already in the checkout. *)
Definition boot_with_debuggee : World Demo.healthy :=
  Demo.start Demo.healthy
    (Demo.checkout ∪ {[ "/repo/tests/e2e/hello_world.py" ]}) (Demo.Idle, 0%nat).

(** * Properties *)

(** ** Strings and paths *)

Lemma append_cons c a b : String c a +:+ b = String c (a +:+ b).
Proof. reflexivity. Qed.

Lemma append_assoc a b c : (a +:+ b) +:+ c = a +:+ (b +:+ c).
Proof.
  induction a as [|x a IH]; [reflexivity|].
  rewrite !append_cons, IH. reflexivity.
Qed.

Lemma append_length a b :
  String.length (a +:+ b) = (String.length a + String.length b)%nat.
Proof.
  induction a as [|x a IH]; [reflexivity|].
  rewrite append_cons. simpl. rewrite IH. reflexivity.
Qed.

Lemma prefix_spec a b :
  String.prefix a b = true ↔ ∃ post, b = a +:+ post.
Proof.
  revert b. induction a as [|x a IH]; intros b.
  - split; [intros _; exists b; reflexivity | intros _; destruct b; reflexivity].
  - destruct b as [|y b]; cbn [String.prefix].
    + split; [discriminate | intros [post H]; rewrite append_cons in H; discriminate].
    + destruct (ascii_dec x y) as [->|Hxy].
      * rewrite IH. split; intros [post H]; exists post.
        -- rewrite append_cons, H. reflexivity.
        -- rewrite append_cons in H. congruence.
      * split; [discriminate|].
        intros [post H]. rewrite append_cons in H. congruence.
Qed.

Lemma prefix_append a b : String.prefix a (a +:+ b) = true.
Proof. apply prefix_spec. exists b. reflexivity. Qed.

(** [str_in] is literal containment: the needle stands somewhere in the
    haystack, character for character. *)
Lemma str_in_spec needle hay :
  str_in needle hay = true ↔ ∃ pre post, hay = pre +:+ needle +:+ post.
Proof.
  induction hay as [|c hay IH].
  - cbn [str_in]. rewrite orb_false_r, prefix_spec. split.
    + intros [post H]. exists "", post. exact H.
    + intros [pre [post H]]. destruct pre; [exists post; exact H|].
      rewrite append_cons in H. discriminate.
  - cbn [str_in]. rewrite orb_true_iff, prefix_spec, IH. split.
    + intros [[post H] | [pre [post H]]].
      * exists "", post. exact H.
      * exists (String c pre), post. rewrite append_cons, H. reflexivity.
    + intros [pre [post H]]. destruct pre as [|x pre].
      * left. exists post. exact H.
      * right. rewrite append_cons in H. exists pre, post. congruence.
Qed.

Lemma dir_prefix_length d :
  (String.length d ≤ String.length (dir_prefix d))%nat.
Proof.
  unfold dir_prefix. destruct (ends_with "/" d); [lia|].
  rewrite append_length. lia.
Qed.

Lemma eqb_empty_false d : d ≠ "" → String.eqb d "" = false.
Proof. intros H. apply String.eqb_neq. exact H. Qed.

(** Joining a relative name to a directory puts it right beneath. *)
Lemma path_join_relative d b :
  d ≠ "" → String.prefix "/" b = false →
  path_join d b = dir_prefix d +:+ b.
Proof.
  intros Hd Hb. unfold path_join, dir_prefix.
  rewrite Hb, (eqb_empty_false d Hd). simpl.
  destruct (ends_with "/" d); [reflexivity|].
  rewrite append_assoc. reflexivity.
Qed.

Lemma path_join_strictly_inside d b :
  d ≠ "" → b ≠ "" → String.prefix "/" b = false →
  strictly_inside d (path_join d b).
Proof.
  intros Hd Hb Hrel. rewrite (path_join_relative d b Hd Hrel). split.
  - intros Heq. apply (f_equal String.length) in Heq.
    rewrite append_length in Heq. pose proof (dir_prefix_length d).
    destruct b; [congruence|]. simpl in Heq. lia.
  - apply prefix_append.
Qed.

Lemma strictly_inside_under d p : strictly_inside d p → under d p.
Proof. intros [_ H]. right. exact H. Qed.

Lemma path_join_nonempty a b : b ≠ "" → path_join a b ≠ "".
Proof.
  intros Hb. unfold path_join.
  destruct (String.prefix "/" b); [exact Hb|].
  assert (Happ : ∀ x y, y ≠ "" → x +:+ y ≠ "").
  { intros x y Hy. destruct x; [exact Hy|]. rewrite append_cons. discriminate. }
  destruct (String.eqb a "" || ends_with "/" a)%bool; apply Happ; [exact Hb|].
  discriminate.
Qed.

(** ** The command channel *)

Section CommandChannel.
Context {h : Host}.

Lemma bind_run {A B} (m : M h A) (f : A → M h B) w :
  bind m f w = match m w with
               | (Ret a, w') => f a w'
               | (Raise e, w') => (Raise e, w')
               end.
Proof. reflexivity. Qed.

(** With the binary in place, one command is one child process: the
    function returns what the child returned and raises nothing. *)
Lemma run_debugger_command_eq cmd d input_cmds (w : World h) :
  DEBUGGER_BIN h ∈ fs w →
  run_debugger_command cmd d input_cmds w =
    let '(c, e') := debugger h (invocation h cmd d input_cmds) (ext w) in
    (Ret (returncode c =? 0, stdout c, stderr c),
     {| fs := fs w ∪ runtime_dirs d;
        ext := e';
        trace := (command_events h cmd d input_cmds c ++ trace w)%list |}).
Proof.
  intros Hbin.
  unfold run_debugger_command, command_events, invocation, runtime_dirs.
  destruct (str_truthy d) eqn:Hd.
  - unfold bind, log, emit, os_makedirs, ret, subprocess_Popen_communicate.
    cbn -[path_join parents DEBUGGER_BIN TEST_DIR String.concat].
    rewrite lookup_insert_eq. cbn [default].
    rewrite bool_decide_eq_true_2 by set_solver.
    destruct (debugger h _ (ext w)) as [c e'].
    destruct (returncode c =? 0); reflexivity.
  - unfold bind, log, emit, ret, subprocess_Popen_communicate.
    cbn -[path_join parents DEBUGGER_BIN TEST_DIR String.concat].
    rewrite bool_decide_eq_true_2 by exact Hbin.
    destruct (debugger h _ (ext w)) as [c e'].
    rewrite union_empty_r_L.
    destruct (returncode c =? 0); reflexivity.
Qed.

End CommandChannel.

(** ** Stepping through the harness *)

Section Sessions.
Context {h : Host}.

Lemma log_run msg (w : World h) :
  log msg w = (Ret tt, {| fs := fs w; ext := ext w;
                          trace := Print ("[TEST] " +:+ msg) :: trace w |}).
Proof. reflexivity. Qed.

Lemma ret_run {A} (a : A) (w : World h) : ret a w = (Ret a, w).
Proof. reflexivity. Qed.

Lemma answers_app (a b : list Event) :
  answers (a ++ b) = (answers b ++ answers a)%list.
Proof.
  unfold answers, calls. rewrite omap_app, rev_app_distr, map_app. reflexivity.
Qed.

Lemma answers_cons e (t : list Event) :
  answers (e :: t) =
    (answers t ++ match popen_of e with
                  | Some ic => [(tail (argv ic.1), ic.2)]
                  | None => []
                  end)%list.
Proof.
  change (e :: t) with ([e] ++ t)%list. rewrite answers_app.
  destruct e; reflexivity.
Qed.

Lemma answers_nil : answers [] = [].
Proof. reflexivity. Qed.

Lemma answers_command_events cmd d i c :
  answers (command_events h cmd d i c) = [(cmd, c)].
Proof.
  unfold command_events, answers, calls.
  destruct (returncode c =? 0), (str_truthy d); reflexivity.
Qed.

Lemma answers_build evs : Forall is_build_event evs → answers evs = [].
Proof.
  induction 1 as [|e evs He _ IH]; [reflexivity|].
  rewrite answers_cons, IH. destruct e; try contradiction; reflexivity.
Qed.

Lemma in_env_build d evs : Forall is_build_event evs → Forall (in_env d) evs.
Proof.
  intros H. eapply Forall_impl; [exact H|].
  intros e He. destruct e; try contradiction; exact I.
Qed.

Lemma str_truthy_nonempty d : d ≠ "" → str_truthy d = true.
Proof. intros H. unfold str_truthy. rewrite eqb_empty_false; auto. Qed.

Lemma in_env_command_events cmd d i c :
  d ≠ "" → Forall (in_env d) (command_events h cmd d i c).
Proof.
  intros Hd. unfold command_events, invocation.
  rewrite (str_truthy_nonempty d Hd).
  assert (Hp : in_env d (Popen
    {| argv := DEBUGGER_BIN h :: cmd;
       env := <["XDG_RUNTIME_DIR":=path_join d "runtime"]>
                (<["XDG_CONFIG_HOME":=d]> (environ h));
       cwd := TEST_DIR h; input := i |} c)).
  { cbn [in_env env]. split.
    - rewrite lookup_insert_ne by discriminate. apply lookup_insert_eq.
    - apply lookup_insert_eq. }
  destruct (returncode c =? 0); cbn [app];
    repeat (apply List.Forall_cons; [first [exact I | exact Hp]|]); apply List.Forall_nil.
Qed.

Lemma ext_nil {A} (t : list A) : t = ([] ++ t)%list.
Proof. reflexivity. Qed.
Lemma ext_cons {A} (x : A) t l b : t = (l ++ b)%list → x :: t = ((x :: l) ++ b)%list.
Proof. intros ->. reflexivity. Qed.
Lemma ext_app {A} (a : list A) t l b : t = (l ++ b)%list → (a ++ t = (a ++ l) ++ b)%list.
Proof. intros ->. apply List.app_assoc. Qed.

Lemma sleep_run s (w : World h) :
  time_sleep s w = (Ret tt, {| fs := fs w; ext := ext w;
                               trace := Sleep s :: trace w |}).
Proof. reflexivity. Qed.

End Sessions.

Ltac step_log :=
  rewrite bind_run, log_run; cbn beta iota; cbn [fs ext trace].
Ltac step_cmd c e :=
  rewrite bind_run, run_debugger_command_eq
    by (cbn [fs]; repeat apply elem_of_union_l; assumption);
  cbn [fs ext trace]; destruct (debugger _ _ _) as [c e]; cbn beta iota.
Ltac branch c H :=
  destruct (returncode c =? 0) eqn:H; cbn [negb]; cbn beta iota.
Ltac trace_ext :=
  repeat first [apply ext_app | apply ext_cons]; apply ext_nil.
Ltac events_in_env :=
  repeat first
    [ apply in_env_command_events; assumption
    | apply in_env_build; assumption
    | apply List.Forall_nil
    | apply List.Forall_cons; [exact I|]
    | apply Forall_app; split ].
Ltac read_answers :=
  repeat (rewrite answers_app || rewrite answers_cons
          || rewrite answers_command_events || rewrite answers_nil);
  repeat match goal with H : Forall is_build_event _ |- _ =>
    rewrite (answers_build _ H) end;
  cbn [popen_of app].
Ltac fs_grows :=
  let x := fresh "x" in let Hx := fresh "Hx" in
  intros x Hx; repeat apply elem_of_union_l; exact Hx.
Ltac fs_bound :=
  repeat (apply union_least; [|apply union_subseteq_r]);
  apply union_subseteq_l.
Ltac finish Htr Hfs :=
  rewrite ?ret_run;
  eexists _, _, _; split; [reflexivity|];
  cbn [trace fs]; rewrite Htr, Hfs;
  split; [trace_ext|];
  split; [fs_grows|];
  split; [fs_bound|];
  split; [intros ?; events_in_env|].

Section TestProgram.
Context {h : Host}.

(** ** One scenario: the sessions of [test_program] *)

(** With the binary in place [test_program] returns, never raises, and
    what it did is one of the sessions of [session_of], or nothing at all
    when the build step raised. *)
Lemma test_program_session name src compiler expected d args (w : World h) :
  DEBUGGER_BIN h ∈ fs w →
  (∀ f, compiler = Some f → is_compiler f) →
  ∃ b w' evs,
    test_program name src compiler expected d args w = (Ret b, w') ∧
    trace w' = (evs ++ trace w)%list ∧
    fs w ⊆ fs w' ∧
    fs w' ⊆ fs w ∪ runtime_dirs d ∧
    (d ≠ "" → Forall (in_env d) evs) ∧
    ((answers evs = [] ∧ b = false) ∨
     session_of (start_command (debuggee (h:=h) name src compiler) args)
       expected (answers evs) b).
Proof.
  intros Hbin Hcompiler. unfold test_program. step_log.
  rewrite bind_run.
  assert (Hbuilt : ∃ r w1 evs1,
    match compiler with
    | Some compiler0 =>
        try_except is_Exception
          (compiler0 (path_join (TEST_DIR h) src) (path_join (TEST_DIR h) name);;
           ret (inl (path_join (TEST_DIR h) name)))
          (λ e, log ("Compilation failed: " +:+ str_exn e);; ret (inr false))
    | None => ret (inl (path_join (TEST_DIR h) src))
    end {| fs := fs w; ext := ext w;
           trace := Print ("[TEST] " +:+ "=== Testing " +:+ name +:+ " ===")
                    :: trace w |} = (Ret r, w1) ∧
    (r = inr false ∨ r = inl (debuggee (h:=h) name src compiler)) ∧
    trace w1 = (evs1 ++ trace w)%list ∧ Forall is_build_event evs1 ∧
    fs w1 = fs w).
  { destruct compiler as [f|].
    - destruct (Hcompiler f eq_refl (path_join (TEST_DIR h) src)
                  (path_join (TEST_DIR h) name)
                  {| fs := fs w; ext := ext w;
                     trace := Print ("[TEST] " +:+ "=== Testing " +:+ name +:+ " ===")
                              :: trace w |})
        as (r & w1 & evs1 & Hf & Hexn & Htr & Hev & Hfs).
      unfold try_except. rewrite bind_run, Hf. destruct r as [[]|e].
      + rewrite ret_run. eexists _, _, (evs1 ++ [_])%list.
        split; [reflexivity|]. split; [right; reflexivity|].
        split; [rewrite Htr, <- List.app_assoc; reflexivity|].
        split; [|exact Hfs].
        apply Forall_app; split; [exact Hev|]. repeat constructor.
      + rewrite (Hexn e eq_refl). rewrite bind_run, log_run, ret_run.
        eexists _, _, (_ :: evs1 ++ [_])%list.
        split; [reflexivity|]. split; [left; reflexivity|].
        cbn [trace fs].
        split; [rewrite Htr; cbn [app]; rewrite <- List.app_assoc; reflexivity|].
        split; [|exact Hfs].
        constructor; [exact I|].
        apply Forall_app; split; [exact Hev|]. repeat constructor.
    - rewrite ret_run. eexists _, _, [_].
      split; [reflexivity|]. split; [right; reflexivity|].
      split; [reflexivity|]. split; [|reflexivity]. repeat constructor. }
  destruct Hbuilt as (r & w1 & evs1 & -> & Hr & Htr & Hev & Hfs).
  destruct Hr as [-> | ->].
  { finish Htr Hfs. left. split; [read_answers; reflexivity | reflexivity]. }
  assert (Hbin1 : DEBUGGER_BIN h ∈ fs w1) by (rewrite Hfs; exact Hbin).
  fold (start_command (debuggee (h:=h) name src compiler) args).
  generalize (start_command (debuggee (h:=h) name src compiler) args).
  intros start_cmd.
  step_cmd c0 e0. step_log. step_cmd c1 e1. branch c1 H1.
  2:{ step_log. finish Htr Hfs. right. read_answers. constructor; assumption. }
  step_log. step_cmd c2 e2. branch c2 H2.
  2:{ step_log. finish Htr Hfs. right. read_answers. constructor; assumption. }
  step_log. step_cmd c3 e3. branch c3 H3.
  2:{ step_log. finish Htr Hfs. right. read_answers. constructor; assumption. }
  step_log. step_cmd c4 e4. branch c4 H4.
  2:{ finish Htr Hfs. right. read_answers. constructor; assumption. }
  step_log. step_log. step_cmd c5 e5. step_log. step_log.
  step_cmd c6 e6. branch c6 H6.
  2:{ finish Htr Hfs. right. read_answers. constructor; assumption. }
  step_log. rewrite bind_run.
  match goal with |- context [if ?b then log _ else ret tt] => destruct b end;
    rewrite ?log_run, ?ret_run; cbn beta iota; cbn [fs ext trace].
  all: step_log; step_cmd c7 e7; branch c7 H7;
    [| finish Htr Hfs; right; read_answers; constructor; assumption ].
  all: step_log; step_cmd c8 e8; step_log;
    rewrite bind_run, sleep_run; cbn beta iota; cbn [fs ext trace];
    step_cmd c9 e9; step_log.
  all: destruct (str_in expected (stdout c9)) eqn:H9; cbn [negb]; cbn beta iota;
    step_log; finish Htr Hfs; right; read_answers;
    refine (eq_rect _ (session_of _ _ _) _ _ H9);
    constructor; assumption.
Qed.
End TestProgram.

(** ** Starting without the binary *)

(** C10. When the debugger binary is not at its expected path, [main]
    prints one line and exits with code 1: no directory is provisioned, no
    child process is spawned, and the paths and the host are as they were. *)
Theorem main_without_binary_exits_1 (h : Host) (w : World h) :
  DEBUGGER_BIN h ∉ fs w →
  ∃ line,
    main w = (Raise (SystemExit 1),
              {| fs := fs w; ext := ext w; trace := Print line :: trace w |}) ∧
    exit_status (fst (main w)) = 1 ∧
    provisioned (trace (snd (main w))) = provisioned (trace w) ∧
    calls (trace (snd (main w))) = calls (trace w).
Proof.
  intros Hbin. eexists.
  assert (Hmain : main w = (Raise (SystemExit 1),
    {| fs := fs w; ext := ext w;
       trace := Print ("[TEST] " +:+ "Debugger binary not found at "
                       +:+ DEBUGGER_BIN h +:+ ". Please build release first.")
                :: trace w |})).
  { unfold main. rewrite bind_run. unfold os_path_exists.
    rewrite (bool_decide_eq_false_2 _ Hbin). cbn [negb].
    rewrite bind_run, log_run. reflexivity. }
  rewrite Hmain. repeat split; reflexivity.
Qed.

Lemma main_without_binary_exits_1_witness :
  exit_status (fst (main (Demo.start Demo.healthy ∅ (Demo.Idle, 0%nat)))) = 1.
Proof.
  destruct (main_without_binary_exits_1 Demo.healthy
              (Demo.start Demo.healthy ∅ (Demo.Idle, 0%nat)))
    as (line & _ & Hexit & _).
  - vm_compute. discriminate.
  - exact Hexit.
Defined.

(** ** Tearing the environment down *)

Section Teardown.
Context {h : Host}.

Lemma not_under_filter (d p : string) (paths : gset string) :
  under d p → p ∉ filter (λ q, ¬ under d q) paths.
Proof.
  intros Hp Hin. apply elem_of_filter in Hin. destruct Hin as [Hn _].
  exact (Hn Hp).
Qed.

Lemma destroy_present d (w : World h) :
  d ∈ fs w →
  destroy d w = (Ret tt, {| fs := filter (λ q, ¬ under d q) (fs w);
                            ext := ext w;
                            trace := Rmtree d :: trace w |}).
Proof.
  intros Hd. unfold destroy, shutil_rmtree.
  rewrite (bool_decide_eq_true_2 _ Hd). reflexivity.
Qed.

Lemma destroy_absent d (w : World h) :
  d ∉ fs w → destroy d w = (Raise (FileNotFoundError d), w).
Proof.
  intros Hd. unfold destroy, shutil_rmtree.
  rewrite (bool_decide_eq_false_2 _ Hd). reflexivity.
Qed.

End Teardown.

(** C4 (as the code has it). [destroy] removes the directory and
    everything beneath it and leaves the other paths alone; it is not
    idempotent: called again, on the directory that is now absent, it
    raises [FileNotFoundError] and changes nothing. *)
Theorem destroy_removes_then_raises (h : Host) (d : string) (w : World h) :
  d ∈ fs w →
  ∃ w1,
    destroy d w = (Ret tt, w1) ∧
    (∀ p, under d p → p ∉ fs w1) ∧
    (∀ p, ¬ under d p → (p ∈ fs w1 ↔ p ∈ fs w)) ∧
    destroy d w1 = (Raise (FileNotFoundError d), w1).
Proof.
  intros Hd. rewrite (destroy_present d w Hd). eexists.
  split; [reflexivity|]. cbn [fs].
  split; [intros p Hp; apply not_under_filter; exact Hp|]. split.
  - intros p Hp. rewrite elem_of_filter. tauto.
  - apply destroy_absent. cbn [fs]. apply not_under_filter. left. reflexivity.
Qed.

Lemma destroy_removes_then_raises_witness :
  ∃ w1,
    destroy "/tmp/env" (Demo.start Demo.healthy {[ "/tmp/env"; "/tmp/env/runtime" ]}
                          (Demo.Idle, 0%nat)) = (Ret tt, w1) ∧
    destroy "/tmp/env" w1 = (Raise (FileNotFoundError "/tmp/env"), w1).
Proof.
  destruct (destroy_removes_then_raises Demo.healthy "/tmp/env"
              (Demo.start Demo.healthy {[ "/tmp/env"; "/tmp/env/runtime" ]}
                 (Demo.Idle, 0%nat)))
    as (w1 & H1 & _ & _ & H2).
  - vm_compute. reflexivity.
  - exists w1. split; assumption.
Defined.

(** C4, the claim as the specification states it, fails: [destroy] on a
    directory that is not there raises. *)
Lemma destroy_absent_raises :
  ("/tmp/env" ∉ fs (Demo.start Demo.healthy ∅ (Demo.Idle, 0%nat))) ∧
  (fst (destroy "/tmp/env" (Demo.start Demo.healthy ∅ (Demo.Idle, 0%nat)))
     = Raise (FileNotFoundError "/tmp/env")).
Proof. split; [vm_compute; discriminate | vm_compute; reflexivity]. Qed.

(** ** The runtime root *)

(** C9. A command invocation that carries a config directory points the
    child at a runtime root strictly inside the config root; the runtime
    root is made sure of before the child is spawned, without error whether
    it was there or not; and removing the config root removes it. *)
Theorem runtime_root_inside_config_root (h : Host) (cmd : list string)
    (d : string) (input_cmds : option string) (w : World h) :
  d ≠ "" → DEBUGGER_BIN h ∈ fs w →
  ∃ inv c w' logs,
    run_debugger_command cmd d input_cmds w
      = (Ret (succeeded c, stdout c, stderr c), w') ∧
    trace w' = (logs ++ Popen inv c :: Makedirs (path_join d "runtime")
                  :: Print ("[TEST] Running: "
                            +:+ String.concat " " (DEBUGGER_BIN h :: cmd))
                  :: trace w)%list ∧
    Forall is_print logs ∧
    argv inv = DEBUGGER_BIN h :: cmd ∧
    env inv !! "XDG_CONFIG_HOME" = Some d ∧
    env inv !! "XDG_RUNTIME_DIR" = Some (path_join d "runtime") ∧
    strictly_inside d (path_join d "runtime") ∧
    path_join d "runtime" ∈ fs w' ∧
    (∀ w2 : World h, d ∈ fs w2 →
       ∃ w3, destroy d w2 = (Ret tt, w3) ∧
             (d ∉ fs w3) ∧ (path_join d "runtime" ∉ fs w3)).
Proof.
  intros Hd Hbin.
  assert (Hin : strictly_inside d (path_join d "runtime")).
  { apply path_join_strictly_inside; [exact Hd | discriminate | reflexivity]. }
  rewrite (run_debugger_command_eq cmd d input_cmds w Hbin).
  destruct (debugger h _ (ext w)) as [c e'] eqn:Hdbg.
  exists (invocation h cmd d input_cmds), c. eexists.
  exists (if returncode c =? 0 then []
          else [ Print ("[TEST] STDERR: " +:+ stderr c);
                 Print ("[TEST] STDOUT: " +:+ stdout c);
                 Print ("[TEST] Command failed with code "
                        +:+ pretty (returncode c)) ]).
  split; [reflexivity|]. cbn [trace fs].
  split.
  { unfold command_events. rewrite (str_truthy_nonempty d Hd).
    rewrite <- List.app_assoc. reflexivity. }
  split.
  { destruct (returncode c =? 0); repeat constructor. }
  split; [reflexivity|].
  unfold invocation. rewrite (str_truthy_nonempty d Hd). cbn [env].
  split.
  { rewrite lookup_insert_ne by discriminate. apply lookup_insert_eq. }
  split; [apply lookup_insert_eq|].
  split; [exact Hin|].
  split.
  { unfold runtime_dirs. rewrite (str_truthy_nonempty d Hd).
    apply elem_of_union_r. apply elem_of_list_to_set. left. }
  intros w2 Hd2.
  rewrite (destroy_present d w2 Hd2). eexists. split; [reflexivity|].
  cbn [fs]. split; apply not_under_filter.
  - left. reflexivity.
  - apply strictly_inside_under. exact Hin.
Qed.

Lemma runtime_root_inside_config_root_witness :
  ∃ inv c w',
    run_debugger_command ["stop"] "/tmp/env" None
      (Demo.start Demo.healthy Demo.checkout (Demo.Idle, 0%nat))
      = (Ret (succeeded c, stdout c, stderr c), w') ∧
    env inv !! "XDG_RUNTIME_DIR" = Some "/tmp/env/runtime" ∧
    "/tmp/env/runtime" ∈ fs w'.
Proof.
  destruct (runtime_root_inside_config_root Demo.healthy ["stop"] "/tmp/env"
              None (Demo.start Demo.healthy Demo.checkout (Demo.Idle, 0%nat)))
    as (inv & c & w' & logs & Hrun & _ & _ & _ & _ & Hrt & _ & Hfs & _).
  - discriminate.
  - vm_compute. reflexivity.
  - exists inv, c, w'. split; [exact Hrun|]. split; [exact Hrt | exact Hfs].
Defined.

(** ** What a scenario returns *)

Section Verdicts.
Context {h : Host}.

Lemma test_program_runs name src compiler expected d args (w : World h) :
  DEBUGGER_BIN h ∈ fs w →
  (∀ f, compiler = Some f → is_compiler f) →
  ∃ b l,
    runs (test_program name src compiler expected d args) w b l ∧
    ((l = [] ∧ b = false) ∨
     session_of (start_command (debuggee (h:=h) name src compiler) args)
       expected l b).
Proof.
  intros Hbin Hc.
  destruct (test_program_session name src compiler expected d args w Hbin Hc)
    as (b & w' & evs & Hrun & Htr & _ & _ & _ & Hshape).
  exists b, (answers evs). split; [|exact Hshape].
  exists w', evs. auto.
Qed.

Lemma runs_functional {A} (m : M h A) w a1 l1 a2 l2 :
  runs m w a1 l1 → runs m w a2 l2 → a1 = a2 ∧ l1 = l2.
Proof.
  intros (w1 & evs1 & Hm1 & Ht1 & <-) (w2 & evs2 & Hm2 & Ht2 & <-).
  rewrite Hm1 in Hm2. injection Hm2 as -> ->.
  rewrite Ht1 in Ht2. apply app_inv_tail in Ht2. subst. auto.
Qed.

End Verdicts.

Ltac not_in_list :=
  let Hin := fresh "Hin" in
  clear; intros Hin;
  repeat (apply elem_of_cons in Hin; destruct Hin as [Hin|Hin];
          [discriminate Hin|]);
  apply elem_of_nil in Hin; exact Hin.

Ltac compare_at H i :=
  let Hi := fresh "Hi" in
  assert (Hi := H i ltac:(not_in_list)); simpl in Hi.

(** The value a scenario returns is decided by the answers to the commands
    other than the first ([stop]), the sixth ([threads]) and the ninth
    (the [await] after the last [continue]). *)
Lemma verdict_ignores expected l1 b1 l2 b2 :
  scenario_outcome expected l1 b1 → scenario_outcome expected l2 b2 →
  agree_except [0; 5; 8]%nat l1 l2 → b1 = b2.
Proof.
  intros [[-> ->] | [s1 H1]] [[-> ->] | [s2 H2]] Hagree;
    unfold agree_except in Hagree.
  - reflexivity.
  - destruct H2; compare_at Hagree 1%nat; discriminate.
  - destruct H1; compare_at Hagree 1%nat; discriminate.
  - destruct H1, H2; try reflexivity;
      compare_at Hagree 1%nat; compare_at Hagree 2%nat;
      compare_at Hagree 3%nat; compare_at Hagree 4%nat;
      compare_at Hagree 6%nat; compare_at Hagree 7%nat;
      compare_at Hagree 9%nat; congruence.
Qed.

Ltac finish_here :=
  rewrite ?ret_run;
  eexists _, _, _; split; [reflexivity|];
  cbn [trace fs];
  split; [trace_ext|];
  split; [fs_grows|];
  split; [fs_bound|];
  split; [intros ?; events_in_env|].

(** ** The complex application *)

Section Complex.
Context {h : Host}.

Lemma test_complex_python_session d (w : World h) :
  DEBUGGER_BIN h ∈ fs w →
  ∃ b w' evs,
    test_complex_python d w = (Ret b, w') ∧
    trace w' = (evs ++ trace w)%list ∧
    fs w ⊆ fs w' ∧
    fs w' ⊆ fs w ∪ runtime_dirs d ∧
    (d ≠ "" → Forall (in_env d) evs) ∧
    ((answers evs = [] ∧ b = false) ∨
     complex_session_of (complex_start_command h) (answers evs) b).
Proof.
  intros Hbin. unfold test_complex_python. step_log.
  rewrite bind_run. unfold os_path_exists at 1. cbn [fs].
  destruct (bool_decide _); cbn [negb]; cbn beta iota.
  2:{ step_log. finish_here. left. split; [read_answers; reflexivity | reflexivity]. }
  step_cmd c0 e0. step_log. step_cmd c1 e1. branch c1 H1.
  2:{ finish_here. right. read_answers. constructor; assumption. }
  step_cmd c2 e2.
  destruct (str_in "Complex App Finished" (stdout c2)) eqn:H2;
    cbn [negb]; cbn beta iota; repeat step_log; finish_here; right;
    read_answers;
    refine (eq_rect _ (complex_session_of _ _) _ _ H2);
    constructor; assumption.
Qed.
End Complex.

Section Ignored.
Context {h : Host}.

Lemma test_program_outcome name src compiler expected d args (w : World h) :
  DEBUGGER_BIN h ∈ fs w →
  (∀ f, compiler = Some f → is_compiler f) →
  ∀ b l, runs (test_program name src compiler expected d args) w b l →
         scenario_outcome expected l b.
Proof.
  intros Hbin Hc b l Hruns.
  destruct (test_program_runs name src compiler expected d args w Hbin Hc)
    as (b0 & l0 & Hruns0 & Hshape).
  destruct (runs_functional _ _ _ _ _ _ Hruns Hruns0) as [-> ->].
  destruct Hshape as [H|H]; [left; exact H | right; eexists; exact H].
Qed.



End Ignored.

Lemma start_command_head binary_path args :
  ∃ rest, start_command binary_path args = "start" :: rest.
Proof.
  unfold start_command. destruct (args_truthy args); eexists; reflexivity.
Qed.



Lemma agree_except_mono K K' l1 l2 :
  K ⊆ K' → agree_except K l1 l2 → agree_except K' l1 l2.
Proof. intros HK H i Hi. apply H. intros Hin. apply Hi, HK, Hin. Qed.


Ltac sublist :=
  let x := fresh "x" in let Hx := fresh "Hx" in
  intros x Hx; apply elem_of_cons in Hx; destruct Hx as [->|Hx];
  [repeat constructor | apply elem_of_nil in Hx; contradiction].

(** ** Stop before start *)



(** ** Inspection at the breakpoint *)





(** ** The await after the last continue *)

(** C8. Whatever the [await] after the last [continue] answered, the next
    command is [output] and the scenario returns whether the expected text
    is in what [output] printed; the value returned does not depend on what
    that [await] answered.  Once the last [continue] has exited with 0 the
    scenario goes on to that [await] and to [output], whatever the [await]
    answers.  The commands are counted from 0: the last [continue] is the
    eighth, its [await] the ninth, [output] the tenth. *)
Theorem final_await_failure_tolerated (h : Host)
    (name src : string) (compiler : option (string → string → M h unit))
    (expected d : string) (args : option (list string)) (w : World h) :
  DEBUGGER_BIN h ∈ fs w →
  (∀ f, compiler = Some f → is_compiler f) →
  ∃ b l,
    runs (test_program name src compiler expected d args) w b l ∧
    (∀ c_exit, l !! 8%nat = Some (["await"], c_exit) →
       ∃ c_finish c_output,
         l !! 7%nat = Some (["continue"], c_finish) ∧
         l !! 9%nat = Some (["output"], c_output) ∧
         b = str_in expected (stdout c_output)) ∧
    (∀ cmd c_finish,
       l !! 7%nat = Some (cmd, c_finish) → succeeded c_finish = true →
       ∃ c_exit c_output,
         l !! 8%nat = Some (["await"], c_exit) ∧
         l !! 9%nat = Some (["output"], c_output) ∧
         length l = 10%nat ∧
         b = str_in expected (stdout c_output)) ∧
    (∀ (h2 : Host) name2 src2 compiler2 d2 args2 (w2 : World h2) b2 l2,
       DEBUGGER_BIN h2 ∈ fs w2 →
       (∀ f, compiler2 = Some f → is_compiler f) →
       runs (test_program name2 src2 compiler2 expected d2 args2) w2 b2 l2 →
       agree_except [8]%nat l l2 → b2 = b).
Proof.
  intros Hbin Hc.
  destruct (test_program_runs name src compiler expected d args w Hbin Hc)
    as (b & l & Hruns & Hshape).
  exists b, l. split; [exact Hruns|]. split; [|split].
  - intros c_exit H8.
    destruct Hshape as [[-> _] | Hs]; [discriminate H8|].
    destruct Hs; try discriminate H8. eexists _, _. repeat split.
  - intros cmd c_finish H7 Hok.
    destruct Hshape as [[-> _] | Hs]; [discriminate H7|].
    destruct Hs; try discriminate H7; cbn in H7; injection H7 as <- <-;
      [congruence|]. eexists _, _. repeat split.
  - intros h2 name2 src2 compiler2 d2 args2 w2 b2 l2 Hbin2 Hc2 Hruns2 Hagree.
    symmetry. eapply (verdict_ignores expected l b l2 b2).
    + exact (test_program_outcome name src compiler expected d args w
               Hbin Hc b l Hruns).
    + exact (test_program_outcome name2 src2 compiler2 expected d2 args2 w2
               Hbin2 Hc2 b2 l2 Hruns2).
    + eapply agree_except_mono; [|exact Hagree]. sublist.
Qed.

(** A run with a failed [await]: the Python scenario on the demonstration
    host issues the [await], which exits with 1, fetches the output next,
    finds the expected text in it and returns [True]. *)
Lemma final_await_failure_tolerated_witness :
  ∃ b l c_output,
    runs (test_program (h:=Demo.healthy) "test_py" "hello_world.py" None
            "Hello from Python! Sum is 30" "/tmp/env"
            (Some ["--adapter"; "debugpy"]))
         (Demo.start Demo.healthy Demo.checkout (Demo.Idle, 0%nat)) b l ∧
    l !! 8%nat
      = Some (["await"], Demo.failure "command not valid in this state") ∧
    l !! 9%nat = Some (["output"], c_output) ∧
    stdout c_output = "Hello from Python! Sum is 30" +:+ nl ∧
    b = true.
Proof.
  destruct (final_await_failure_tolerated Demo.healthy
              "test_py" "hello_world.py" None
              "Hello from Python! Sum is 30" "/tmp/env"
              (Some ["--adapter"; "debugpy"])
              (Demo.start Demo.healthy Demo.checkout (Demo.Idle, 0%nat)))
    as (b & l & Hruns & Hawait & _).
  - vm_compute. reflexivity.
  - intros f Hf. discriminate Hf.
  - assert (Hl : l = answers (trace (snd
               (test_program (h:=Demo.healthy) "test_py" "hello_world.py" None
                  "Hello from Python! Sum is 30" "/tmp/env"
                  (Some ["--adapter"; "debugpy"])
                  (Demo.start Demo.healthy Demo.checkout (Demo.Idle, 0%nat)))))).
    { destruct Hruns as (w' & evs & Hm & Htr & <-). rewrite Hm. cbn [snd].
      rewrite Htr. cbn [Demo.start trace]. rewrite app_nil_r. reflexivity. }
    assert (H8 : l !! 8%nat
              = Some (["await"], Demo.failure "command not valid in this state")).
    { rewrite Hl. vm_compute. reflexivity. }
    destruct (Hawait _ H8) as (c_finish & c_output & _ & H9 & Hb).
    exists b, l, c_output.
    split; [exact Hruns|]. split; [exact H8|]. split; [exact H9|].
    assert (Hout : c_output = Demo.done ("Hello from Python! Sum is 30" +:+ nl)).
    { rewrite Hl in H9. vm_compute in H9. injection H9 as <-.
      vm_compute. reflexivity. }
    rewrite Hb, Hout. split; vm_compute; reflexivity.
Defined.

(** On the demonstration host the debuggee has ended when that [await] is
    issued: the [await] fails, and the scenario passes. *)
Example final_await_fails_scenario_passes :
  let r := test_program (h:=Demo.healthy) "test_py" "hello_world.py" None
             "Hello from Python! Sum is 30" "/tmp/env"
             (Some ["--adapter"; "debugpy"])
             (Demo.start Demo.healthy Demo.checkout (Demo.Idle, 0%nat)) in
  fst r = Ret true ∧
  (snd <$> answers (trace (snd r)) !! 8%nat)
    = Some (Demo.failure "command not valid in this state").
Proof. split; vm_compute; reflexivity. Qed.

(** ** Compilers and probes *)

Section Tools.
Context {h : Host}.

(** What [subprocess.check_call] can do. *)
Lemma check_call_cases cmd (w : World h) :
  (which h (hd "" cmd) = false ∧
   subprocess_check_call cmd w = (Raise (FileNotFoundError (hd "" cmd)), w)) ∨
  (which h (hd "" cmd) = true ∧
   ∃ rc e',
     tool h cmd (ext w) = (rc, e') ∧
     subprocess_check_call cmd w =
       (if rc =? 0 then Ret tt else Raise (CalledProcessError rc cmd),
        {| fs := fs w; ext := e'; trace := CheckCall cmd rc :: trace w |})).
Proof.
  unfold subprocess_check_call. destruct (which h (hd "" cmd)).
  - right. split; [reflexivity|].
    destruct (tool h cmd (ext w)) as [rc e']. exists rc, e'.
    split; [reflexivity|]. destruct (rc =? 0); reflexivity.
  - left. split; reflexivity.
Qed.

(** A build step that logs its command and runs it is a compiler in the
    sense of [is_compiler]. *)
Lemma logged_check_call_is_compiler (line : string → string → string)
    (cmd : string → string → list string) :
  is_compiler (h:=h) (λ source output,
    log (line source output);; subprocess_check_call (cmd source output)).
Proof.
  intros source output w. rewrite bind_run, log_run.
  destruct (check_call_cases (cmd source output)
              {| fs := fs w; ext := ext w;
                 trace := Print ("[TEST] " +:+ line source output) :: trace w |})
    as [[_ ->] | [_ (rc & e' & _ & ->)]].
  - eexists _, _, [_]. split; [reflexivity|].
    split; [intros e [= <-]; reflexivity|].
    split; [reflexivity|]. split; [|reflexivity].
    repeat constructor.
  - eexists _, _, [_; _]. split; [reflexivity|].
    split; [destruct (rc =? 0); intros e [= <-]; reflexivity|].
    split; [reflexivity|]. split; [|reflexivity].
    repeat constructor.
Qed.

Lemma compile_c_is_compiler : is_compiler (h:=h) compile_c.
Proof.
  exact (logged_check_call_is_compiler
           (λ source output,
              "Compiling C: " +:+ String.concat " " [GCC; "-g"; "-o"; output; source])
           (λ source output, [GCC; "-g"; "-o"; output; source])).
Qed.

Lemma compile_rust_is_compiler : is_compiler (h:=h) compile_rust.
Proof.
  exact (logged_check_call_is_compiler
           (λ source output,
              "Compiling Rust: " +:+ String.concat " " [RUSTC; "-g"; "-o"; output; source])
           (λ source output, [RUSTC; "-g"; "-o"; output; source])).
Qed.

Lemma compile_go_is_compiler : is_compiler (h:=h) compile_go.
Proof.
  exact (logged_check_call_is_compiler
           (λ source output,
              "Compiling Go: " +:+ String.concat " "
                [GO; "build"; "-gcflags=all=-N -l"; "-o"; output; source])
           (λ source output,
              [GO; "build"; "-gcflags=all=-N -l"; "-o"; output; source])).
Qed.

(** The probes print nothing, run one tool at most and leave the paths
    alone.  [check_debugpy] lets through the exception of an interpreter
    that is not there; [check_delve] catches both. *)
Lemma check_debugpy_cases (w : World h) :
  ∃ r w' evs,
    check_debugpy w = (r, w') ∧
    trace w' = (evs ++ trace w)%list ∧
    Forall is_build_event evs ∧
    fs w' = fs w ∧
    (∀ e, r = Raise e → e = FileNotFoundError (PYTHON h)) ∧
    (r = Ret true ∨ r = Ret false ∨ r = Raise (FileNotFoundError (PYTHON h))).
Proof.
  unfold check_debugpy, try_except. rewrite bind_run.
  destruct (check_call_cases [PYTHON h; "-c"; "import debugpy"] w)
    as [[_ ->] | [_ (rc & e' & _ & ->)]].
  - eexists _, _, []. split; [reflexivity|]. split; [reflexivity|].
    split; [constructor|]. split; [reflexivity|].
    split; [intros e [= <-]; reflexivity | right; right; reflexivity].
  - destruct (rc =? 0); cbn [is_CalledProcessError]; rewrite ?ret_run;
      eexists _, _, [_]; (split; [reflexivity|]); (split; [reflexivity|]);
      (split; [repeat constructor|]); (split; [reflexivity|]);
      (split; [intros e; discriminate | auto]).
Qed.

Lemma check_delve_cases (w : World h) :
  ∃ b w' evs,
    check_delve w = (Ret b, w') ∧
    trace w' = (evs ++ trace w)%list ∧
    Forall is_build_event evs ∧
    fs w' = fs w ∧
    (which h "dlv" = false → b = false).
Proof.
  unfold check_delve, try_except. rewrite bind_run.
  destruct (check_call_cases ["dlv"; "version"] w)
    as [[Hw ->] | [Hw (rc & e' & _ & ->)]]; cbn [hd] in Hw.
  - cbn [is_CalledProcessError_or_FileNotFoundError]. rewrite ret_run.
    eexists _, _, []. split; [reflexivity|]. split; [reflexivity|].
    split; [constructor|]. split; [reflexivity|]. reflexivity.
  - destruct (rc =? 0); cbn [is_CalledProcessError_or_FileNotFoundError];
      rewrite ?ret_run;
      eexists _, _, [_]; (split; [reflexivity|]); (split; [reflexivity|]);
      (split; [repeat constructor|]); (split; [reflexivity|]);
      congruence.
Qed.

End Tools.

(** ** The run coordinator: [main] against [run_all] *)

Ltac normalise :=
  repeat first
    [ rewrite bind_run | rewrite ret_run | rewrite log_run
    | progress cbn beta iota
    | progress cbn [negb run_scenarios sc_probe sc_run sc_name app]
    | progress unfold run_scenario ].

Ltac case_call :=
  match goal with
  | |- context [match ?m ?w with _ => _ end] =>
      lazymatch m with
      | test_program _ _ _ _ _ _ =>
          let a := fresh "passed" in let w1 := fresh "w" in
          destruct (m w) as [[a|?] w1]
      | test_complex_python _ =>
          let a := fresh "passed" in let w1 := fresh "w" in
          destruct (m w) as [[a|?] w1]
      | check_debugpy =>
          let w1 := fresh "w" in destruct (m w) as [[[]|?] w1]
      | check_delve =>
          let w1 := fresh "w" in destruct (m w) as [[[]|?] w1]
      end
  | |- context [bool_decide (?p ∈ fs ?w)] => destruct (bool_decide (p ∈ fs w))
  end.

Section Refinement.
Context {h : Host}.

(** The flag [main] keeps is the report read for a failure: the body of
    its [try] runs the scenarios as [run_scenarios] does. *)
Lemma main_try_eq d (w : World h) :
  main_try d w =
    match run_scenarios scenarios d [] w with
    | (report, Ret _, w') => (Ret (any_failed report), w')
    | (_, Raise e, w') => (Raise e, w')
    end.
Proof.
  unfold main_try, scenarios, run_scenario,
    scenario_c, scenario_rs, scenario_py, scenario_go, scenario_complex,
    os_path_exists, write_file.
  repeat (normalise; case_call).
  all: normalise.
  all: try reflexivity.
  all: repeat match goal with b : bool |- _ => destruct b end; reflexivity.
Qed.
End Refinement.

(** ** Staying within the environment *)

Section Safety.
Context {h : Host}.

Lemma env_step_refl d (w : World h) : env_step d w w.
Proof. exists []. split; [reflexivity|]. split; [constructor | reflexivity]. Qed.

Lemma env_step_trans d (w1 w2 w3 : World h) :
  env_step d w1 w2 → env_step d w2 w3 → env_step d w1 w3.
Proof.
  intros (evs1 & Ht1 & He1 & Hf1) (evs2 & Ht2 & He2 & Hf2).
  exists (evs2 ++ evs1)%list. split; [|split].
  - rewrite Ht2, Ht1, List.app_assoc. reflexivity.
  - apply Forall_app. split; assumption.
  - etrans; eassumption.
Qed.

Lemma env_step_bin d (w w' : World h) :
  env_step d w w' → DEBUGGER_BIN h ∈ fs w → DEBUGGER_BIN h ∈ fs w'.
Proof. intros (_ & _ & _ & Hf) Hbin. apply Hf, Hbin. Qed.

Lemma safe_ret {A} d (a : A) : safe (h:=h) d (ret a).
Proof.
  intros w _. exists (Ret a), w. split; [reflexivity|].
  split; [apply env_step_refl | discriminate].
Qed.

Lemma safe_bind {A B} d (m : M h A) (f : A → M h B) :
  safe d m → (∀ a, safe d (f a)) → safe d (bind m f).
Proof.
  intros Hm Hf w Hbin. rewrite bind_run.
  destruct (Hm w Hbin) as (r & w1 & -> & Hstep & Hexn).
  destruct r as [a|e].
  - destruct (Hf a w1 (env_step_bin d w w1 Hstep Hbin))
      as (r2 & w2 & -> & Hstep2 & Hexn2).
    exists r2, w2. split; [reflexivity|].
    split; [eapply env_step_trans; eassumption | exact Hexn2].
  - exists (Raise e), w1. split; [reflexivity|]. split; [exact Hstep|].
    intros e0 [= <-]. apply Hexn. reflexivity.
Qed.

Lemma safe_event {A} d (e : Event) (a : A) (extra : gset string) :
  in_env d e →
  safe (h:=h) d (λ w, (Ret a, {| fs := fs w ∪ extra; ext := ext w;
                                 trace := e :: trace w |})).
Proof.
  intros He w _. eexists _, _. split; [reflexivity|]. split; [|discriminate].
  exists [e]. split; [reflexivity|]. split; [repeat constructor; exact He|].
  cbn [fs]. apply union_subseteq_l.
Qed.

Lemma safe_log d msg : safe (h:=h) d (log msg).
Proof.
  intros w _. rewrite log_run. eexists _, _. split; [reflexivity|].
  split; [|discriminate].
  exists [Print ("[TEST] " +:+ msg)]. split; [reflexivity|].
  split; [repeat constructor | reflexivity].
Qed.

Lemma safe_os_path_exists d p : safe (h:=h) d (os_path_exists p).
Proof.
  intros w _. eexists _, _. split; [reflexivity|].
  split; [apply env_step_refl | discriminate].
Qed.

Lemma safe_write_file d p content : safe (h:=h) d (write_file p content).
Proof. apply (safe_event d (WriteFile p content) tt {[ p ]}). exact I. Qed.

Lemma safe_of_build {A} d (m : M h A) :
  (∀ w, ∃ r w' evs, m w = (r, w') ∧ trace w' = (evs ++ trace w)%list ∧
                    Forall is_build_event evs ∧ fs w' = fs w ∧
                    (∀ e, r = Raise e → e = FileNotFoundError (PYTHON h))) →
  safe d m.
Proof.
  intros Hm w _. destruct (Hm w) as (r & w' & evs & -> & Ht & He & Hf & Hx).
  exists r, w'. split; [reflexivity|]. split; [|exact Hx].
  exists evs. split; [exact Ht|]. split; [apply in_env_build, He|].
  rewrite Hf. reflexivity.
Qed.

Lemma safe_check_debugpy d : safe (h:=h) d check_debugpy.
Proof.
  apply safe_of_build. intros w.
  destruct (check_debugpy_cases w) as (r & w' & evs & H1 & H2 & H3 & H4 & H5 & _).
  exists r, w', evs. auto.
Qed.

Lemma safe_check_delve d : safe (h:=h) d check_delve.
Proof.
  apply safe_of_build. intros w.
  destruct (check_delve_cases w) as (b & w' & evs & H1 & H2 & H3 & H4 & _).
  exists (Ret b), w', evs. repeat split; auto. discriminate.
Qed.

Lemma safe_test_program d name src compiler expected args :
  d ≠ "" → (∀ f, compiler = Some f → is_compiler f) →
  safe (h:=h) d (test_program name src compiler expected d args).
Proof.
  intros Hd Hc w Hbin.
  destruct (test_program_session name src compiler expected d args w Hbin Hc)
    as (b & w' & evs & Hrun & Htr & Hfs & _ & Henv & _).
  exists (Ret b), w'. split; [exact Hrun|]. split; [|discriminate].
  exists evs. auto.
Qed.

Lemma safe_test_complex_python d :
  d ≠ "" → safe (h:=h) d (test_complex_python d).
Proof.
  intros Hd w Hbin.
  destruct (test_complex_python_session d w Hbin)
    as (b & w' & evs & Hrun & Htr & Hfs & _ & Henv & _).
  exists (Ret b), w'. split; [exact Hrun|]. split; [|discriminate].
  exists evs. auto.
Qed.

Lemma compiler_of_scenarios (compiler : option (string → string → M h unit)) :
  compiler = Some compile_c ∨ compiler = Some compile_rust ∨
  compiler = Some compile_go ∨ compiler = None →
  ∀ f, compiler = Some f → is_compiler f.
Proof.
  intros [-> | [-> | [-> | ->]]] f [= <-].
  - apply compile_c_is_compiler.
  - apply compile_rust_is_compiler.
  - apply compile_go_is_compiler.
Qed.

Lemma safe_run_scenario d sc :
  d ≠ "" → sc ∈ scenarios → safe (h:=h) d (run_scenario sc d).
Proof.
  intros Hd Hsc. unfold scenarios in Hsc.
  repeat (apply elem_of_cons in Hsc; destruct Hsc as [-> | Hsc]);
    [ .. | apply elem_of_nil in Hsc; contradiction ];
    unfold run_scenario, scenario_c, scenario_rs, scenario_py, scenario_go,
      scenario_complex; cbn [sc_probe sc_run];
    repeat first
      [ apply safe_test_complex_python; exact Hd
      | apply safe_test_program;
          [exact Hd | apply compiler_of_scenarios; tauto]
      | apply safe_check_debugpy | apply safe_check_delve
      | apply safe_os_path_exists | apply safe_write_file
      | apply safe_log | apply safe_ret
      | match goal with |- safe _ (if ?b then _ else _) => destruct b end
      | apply safe_bind; [|intros ?] ].
Qed.

End Safety.

Section Coordination.
Context {h : Host}.

(** The scenarios one after the other: either all of them got their entry
    in the report, or the iteration ended on the exception of a missing
    interpreter with the report short of entries. *)
Lemma run_scenarios_step d scs :
  d ≠ "" → scs ⊆ scenarios →
  ∀ rep (w : World h), DEBUGGER_BIN h ∈ fs w →
    ∃ report r w',
      run_scenarios scs d rep w = (report, r, w') ∧
      env_step d w w' ∧
      ((r = Ret tt ∧
        map fst report = (map fst rep ++ map sc_name scs)%list) ∨
       (r = Raise (FileNotFoundError (PYTHON h)) ∧
        (length report < length rep + length scs)%nat)).
Proof.
  intros Hd. induction scs as [|sc scs IH]; intros Hsub rep w Hbin.
  - exists rep, (Ret tt), w. split; [reflexivity|].
    split; [apply env_step_refl|]. left. split; [reflexivity|].
    cbn [map]. rewrite app_nil_r. reflexivity.
  - cbn [run_scenarios].
    assert (Hsc : sc ∈ scenarios) by (apply Hsub; left).
    assert (Hrest : scs ⊆ scenarios)
      by (intros x Hx; apply Hsub; right; exact Hx).
    destruct (safe_run_scenario d sc Hd Hsc w Hbin)
      as (r & w1 & -> & Hstep & Hexn).
    destruct r as [o|e].
    + destruct (IH Hrest (rep ++ [(sc_name sc, o)])%list w1
                  (env_step_bin d w w1 Hstep Hbin))
        as (report & r & w2 & -> & Hstep2 & Hres).
      exists report, r, w2. split; [reflexivity|].
      split; [eapply env_step_trans; eassumption|].
      destruct Hres as [[-> Hnames] | [-> Hlen]].
      * left. split; [reflexivity|].
        rewrite Hnames, map_app, <- List.app_assoc. reflexivity.
      * right. split; [reflexivity|].
        rewrite length_app in Hlen. cbn [length] in *. lia.
    + exists rep, (Raise e), w1. split; [reflexivity|].
      split; [exact Hstep|]. right.
      rewrite (Hexn e eq_refl). split; [reflexivity|]. cbn [length]. lia.
Qed.

(** [tempfile.mkdtemp] hands out a path that did not exist. *)
Lemma mkdtemp_pick_fresh n dir prefix paths (e : Ext h) f e' :
  mkdtemp_pick n dir prefix paths e = (Some f, e') →
  (f ∉ paths) ∧ ∃ name, f = path_join dir (prefix +:+ name).
Proof.
  revert e. induction n as [|n IH]; intros e; cbn [mkdtemp_pick].
  - discriminate.
  - destruct (rng h e) as [name e1].
    destruct (bool_decide (path_join dir (prefix +:+ name) ∈ paths)) eqn:Hin.
    + apply IH.
    + intros [= <- <-]. split; [|exists name; reflexivity].
      apply bool_decide_eq_false in Hin. exact Hin.
Qed.

(** [setup_config]: a fresh directory, with the application's directory
    and its configuration file in it; or no usable name, and nothing
    done. *)
Lemma setup_config_cases (w : World h) :
  (∃ msg w1,
     setup_config w = (Raise (FileExistsError msg), w1) ∧
     trace w1 = trace w ∧ fs w1 = fs w) ∨
  (∃ d w1 content,
     setup_config w = (Ret d, w1) ∧
     (d ∉ fs w) ∧ d ≠ "" ∧ d ∈ fs w1 ∧ fs w ⊆ fs w1 ∧
     trace w1 =
       WriteFile (path_join (path_join d "debugger-cli") "config.toml") content
       :: Makedirs (path_join d "debugger-cli")
       :: Mkdtemp d :: trace w).
Proof.
  unfold setup_config. rewrite bind_run. unfold tempfile_mkdtemp.
  destruct (mkdtemp_pick TMP_MAX (gettempdir h) "debugger-test-config-"
              (fs w) (ext w)) as [[d|] e'] eqn:Hpick.
  - right. apply mkdtemp_pick_fresh in Hpick. destruct Hpick as [Hfresh [name ->]].
    rewrite bind_run. unfold os_makedirs at 1. cbn beta iota.
    rewrite bind_run. unfold write_file at 1. cbn beta iota. rewrite ret_run.
    eexists _, _, _. split; [reflexivity|]. cbn [fs trace].
    split; [exact Hfresh|].
    split; [apply path_join_nonempty; rewrite append_cons; discriminate|].
    split; [apply elem_of_union_l, elem_of_union_l, elem_of_union_r,
              elem_of_singleton; reflexivity|].
    split; [|reflexivity].
    intros x Hx. apply elem_of_union_l, elem_of_union_l, elem_of_union_l, Hx.
  - left. eexists _, _. split; [reflexivity|]. split; reflexivity.
Qed.

(** [main] is [run_all] without the report. *)
Lemma main_refines_run_all (w : World h) :
  main w = let '(_, r, w') := run_all w in (r, w').
Proof.
  unfold main, run_all. rewrite bind_run. unfold os_path_exists.
  destruct (bool_decide (DEBUGGER_BIN h ∈ fs w)); cbn [negb]; cbn beta iota.
  2:{ destruct ((log _;; sys_exit 1) w) as [r w']. reflexivity. }
  rewrite bind_run. destruct (setup_config w) as [[d|e] w1]; [|reflexivity].
  rewrite bind_run, !log_run. cbn beta iota.
  rewrite bind_run. unfold try_finally. rewrite main_try_eq.
  destruct (run_scenarios scenarios d [] _) as [[report r] w3].
  destruct r as [[]|e]; destruct (destroy d w3) as [[[]|e'] w4];
    try reflexivity.
  destruct (any_failed report); reflexivity.
Qed.

End Coordination.

Section Runs.
Context {h : Host}.

(** Every run of the harness, by cases: no binary; no usable directory
    name; or one environment provisioned, the scenarios run in it, and the
    environment removed. *)
Lemma run_all_cases (w : World h) :
  ∃ report r w',
    run_all w = (report, r, w') ∧ main w = (r, w') ∧
    (((DEBUGGER_BIN h ∉ fs w) ∧ report = [] ∧ r = Raise (SystemExit 1) ∧
      ∃ line, trace w' = Print line :: trace w) ∨
     (DEBUGGER_BIN h ∈ fs w ∧ report = [] ∧
      (∃ msg, r = Raise (FileExistsError msg)) ∧ trace w' = trace w) ∨
     (DEBUGGER_BIN h ∈ fs w ∧
      ∃ d content evs closing,
        (d ∉ fs w) ∧ d ≠ "" ∧
        trace w' =
          (closing ++ Rmtree d :: evs ++
           Print ("[TEST] Created temp config dir at " +:+ d)
           :: WriteFile (path_join (path_join d "debugger-cli") "config.toml")
                content
           :: Makedirs (path_join d "debugger-cli")
           :: Mkdtemp d :: trace w)%list ∧
        Forall (in_env d) evs ∧
        (∀ p, under d p → p ∉ fs w') ∧
        ((map fst report = scenario_names ∧
          r = Raise (SystemExit (if any_failed report then 1 else 0)) ∧
          closing = (if any_failed report then []
                     else [Print "[TEST] All tests passed!"])) ∨
         ((length report < length scenario_names)%nat ∧
          r = Raise (FileNotFoundError (PYTHON h)) ∧ closing = [])))).
Proof.
  pose proof (main_refines_run_all w) as Hmain.
  unfold run_all in *.
  destruct (bool_decide (DEBUGGER_BIN h ∈ fs w)) eqn:Hbin; cbn [negb] in *.
  2:{ apply bool_decide_eq_false in Hbin.
      rewrite bind_run, log_run in *. cbn beta iota in *.
      eexists _, _, _. split; [reflexivity|]. split; [exact Hmain|].
      left. split; [exact Hbin|]. split; [reflexivity|].
      split; [reflexivity|]. eexists. reflexivity. }
  apply bool_decide_eq_true in Hbin.
  destruct (setup_config_cases w)
    as [(msg & w1 & Hsetup & Htr1 & Hfs1)
       | (d & w1 & content & Hsetup & Hfresh & Hd & Hin1 & Hfs1 & Htr1)];
    rewrite Hsetup in *.
  { eexists _, _, _. split; [reflexivity|]. split; [exact Hmain|].
    right. left. split; [exact Hbin|]. split; [reflexivity|].
    split; [eexists; reflexivity | exact Htr1]. }
  rewrite log_run in *.
  set (w2 := {| fs := fs w1; ext := ext w1;
                trace := Print ("[TEST] " +:+ "Created temp config dir at " +:+ d)
                         :: trace w1 |}) in *.
  assert (Hbin2 : DEBUGGER_BIN h ∈ fs w2) by (apply Hfs1, Hbin).
  destruct (run_scenarios_step d scenarios Hd (reflexivity _) [] w2 Hbin2)
    as (report & r & w3 & Hrun & (evs & Htr3 & Henv & Hfs3) & Hres).
  rewrite Hrun in *.
  assert (Hin3 : d ∈ fs w3) by (apply Hfs3, Hin1).
  rewrite (destroy_present d w3 Hin3) in *.
  assert (Hgone : ∀ p, under d p → p ∉ filter (λ q, ¬ under d q) (fs w3))
    by (intros p Hp; apply not_under_filter, Hp).
  assert (Htrace : Rmtree d :: trace w3 =
            (Rmtree d :: evs ++
             Print ("[TEST] Created temp config dir at " +:+ d)
             :: WriteFile (path_join (path_join d "debugger-cli") "config.toml")
                  content
             :: Makedirs (path_join d "debugger-cli")
             :: Mkdtemp d :: trace w)%list).
  { rewrite Htr3. unfold w2. cbn [trace]. rewrite Htr1. reflexivity. }
  destruct Hres as [[-> Hnames] | [-> Hlen]].
  - destruct (any_failed report) eqn:Hfailed.
    + eexists _, _, _. split; [reflexivity|]. split; [exact Hmain|].
      right. right. split; [exact Hbin|].
      exists d, content, evs, []. split; [exact Hfresh|]. split; [exact Hd|].
      cbn [trace fs app]. split; [exact Htrace|]. split; [exact Henv|].
      split; [exact Hgone|]. left. rewrite Hfailed. auto.
    + rewrite bind_run, log_run in *. cbn beta iota in *.
      eexists _, _, _. split; [reflexivity|]. split; [exact Hmain|].
      right. right. split; [exact Hbin|].
      exists d, content, evs, [Print "[TEST] All tests passed!"].
      split; [exact Hfresh|]. split; [exact Hd|].
      cbn [trace fs app]. split; [rewrite Htrace; reflexivity|].
      split; [exact Henv|]. split; [exact Hgone|]. left.
      rewrite Hfailed. auto.
  - eexists _, _, _. split; [reflexivity|]. split; [exact Hmain|].
    right. right. split; [exact Hbin|].
    exists d, content, evs, []. split; [exact Hfresh|]. split; [exact Hd|].
    cbn [trace fs app]. split; [exact Htrace|]. split; [exact Henv|].
    split; [exact Hgone|]. right. auto.
Qed.

End Runs.

(** ** The exit code *)

Lemma any_failed_skips_as_passes report :
  any_failed (skips_as_passes report) = any_failed report.
Proof.
  unfold any_failed, skips_as_passes.
  induction report as [|[name o] report IH]; [reflexivity|].
  cbn [map existsb]. rewrite IH. destruct o; reflexivity.
Qed.

Lemma all_passed_or_skipped_skips_as_passes report :
  all_passed_or_skipped (skips_as_passes report) = all_passed_or_skipped report.
Proof.
  unfold all_passed_or_skipped. rewrite any_failed_skips_as_passes.
  f_equal. unfold skips_as_passes. rewrite map_map. cbn [fst].
  reflexivity.
Qed.

(** The exit code of a run, read off its report. *)
Lemma exit_status_of_report (h : Host) (w : World h) :
  ∃ report r w',
    run_all w = (report, r, w') ∧ main w = (r, w') ∧
    exit_status r = (if all_passed_or_skipped report then 0 else 1).
Proof.
  destruct (run_all_cases w) as (report & r & w' & Hrun & Hmain & Hcases).
  exists report, r, w'. split; [exact Hrun|]. split; [exact Hmain|].
  destruct Hcases
    as [(_ & -> & -> & _)
       | [(_ & -> & (msg & ->) & _)
         | (_ & d & content & evs & closing & _ & _ & _ & _ & _ & Hres)]];
    try reflexivity.
  destruct Hres as [(Hnames & -> & _) | (Hlen & -> & _)];
    unfold all_passed_or_skipped.
  - rewrite (bool_decide_eq_true_2 _ Hnames).
    destruct (any_failed report); reflexivity.
  - rewrite bool_decide_eq_false_2; [reflexivity|].
    intros Hnames. apply (f_equal length) in Hnames.
    rewrite length_map in Hnames. lia.
Qed.

(** C5. The harness exits with 1 when a scenario of its report failed and
    with 0 when every scenario has its entry and none failed; a skip counts
    as a pass.  The report is that of [run_all], which [main] refines. *)
Theorem exit_code_is_read_off_the_report (h : Host) (w : World h) :
  ∃ report r w',
    run_all w = (report, r, w') ∧ main w = (r, w') ∧
    (any_failed report = true → exit_status r = 1) ∧
    (all_passed_or_skipped report = true → exit_status r = 0) ∧
    exit_status r = (if all_passed_or_skipped report then 0 else 1) ∧
    all_passed_or_skipped (skips_as_passes report)
      = all_passed_or_skipped report ∧
    any_failed (skips_as_passes report) = any_failed report.
Proof.
  destruct (exit_status_of_report h w) as (report & r & w' & Hrun & Hmain & Hexit).
  exists report, r, w'. split; [exact Hrun|]. split; [exact Hmain|].
  split; [|split; [|split; [exact Hexit|split]]].
  - intros Hfailed. rewrite Hexit. unfold all_passed_or_skipped.
    rewrite Hfailed, andb_false_r. reflexivity.
  - intros Hall. rewrite Hexit, Hall. reflexivity.
  - apply all_passed_or_skipped_skips_as_passes.
  - apply any_failed_skips_as_passes.
Qed.

(** On the demonstration hosts: everything passes, exit code 0; without a
    C compiler the C scenario fails, exit code 1. *)
Example exit_codes_of_two_runs :
  ((run_all Demo.boot).1 =
     ([("test_c", Passed); ("test_rs", Passed); ("test_py", Passed);
       ("test_go", Passed); ("complex_python", Passed)],
      Raise (SystemExit 0))) ∧
  ((run_all Demo.boot_without_gcc).1 =
     ([("test_c", Failed); ("test_rs", Passed); ("test_py", Passed);
       ("test_go", Passed); ("complex_python", Passed)],
      Raise (SystemExit 1))).
Proof. split; vm_compute; reflexivity. Qed.

(** ** One environment for the whole run *)

(** C1 (as the code has it). A run that finds the binary provisions one
    environment, before the first scenario: a directory that did not
    exist.  Every child process of every scenario is pointed at that same
    directory and at the runtime root inside it, no scenario provisions or
    removes a directory, and after the last scenario the directory is
    removed with everything beneath it. *)
Theorem one_environment_per_run (h : Host) (w : World h) :
  DEBUGGER_BIN h ∈ fs w →
  ∃ r w',
    main w = (r, w') ∧
    (((∃ msg, r = Raise (FileExistsError msg)) ∧ trace w' = trace w) ∨
     ∃ d content evs closing,
       (d ∉ fs w) ∧
       trace w' =
         (closing ++ Rmtree d :: evs ++
          Print ("[TEST] Created temp config dir at " +:+ d)
          :: WriteFile (path_join (path_join d "debugger-cli") "config.toml")
               content
          :: Makedirs (path_join d "debugger-cli")
          :: Mkdtemp d :: trace w)%list ∧
       Forall (in_env d) evs ∧
       Forall is_print closing ∧
       (∀ p, under d p → p ∉ fs w')).
Proof.
  intros Hbin.
  destruct (run_all_cases w) as (report & r & w' & _ & Hmain & Hcases).
  exists r, w'. split; [exact Hmain|].
  destruct Hcases
    as [(Hno & _) | [(_ & _ & Hmsg & Htr)
         | (_ & d & content & evs & closing & Hfresh & _ & Htr & Henv & Hgone
              & Hres)]].
  - contradiction.
  - left. split; assumption.
  - right. exists d, content, evs, closing.
    split; [exact Hfresh|]. split; [exact Htr|]. split; [exact Henv|].
    split; [|exact Hgone].
    destruct Hres as [(_ & _ & ->) | (_ & _ & ->)];
      [destruct (any_failed report)|]; repeat constructor.
Qed.

Lemma one_environment_per_run_witness :
  ∃ r w', main Demo.boot = (r, w') ∧ removed (trace w') = provisioned (trace w').
Proof.
  destruct (one_environment_per_run Demo.healthy Demo.boot)
    as (r & w' & Hmain & _).
  - vm_compute. reflexivity.
  - exists r, w'. split; [exact Hmain|].
    replace w' with (snd (main Demo.boot)) by (rewrite Hmain; reflexivity).
    vm_compute. reflexivity.
Defined.

(** C1, the claim as the specification states it, fails: the run
    provisions one environment, and the sessions of all five scenarios are
    given that same directory. *)
Lemma environment_shared_by_all_scenarios :
  (provisioned (trace (snd (main Demo.boot)))
     = ["/tmp/debugger-test-config-k0"]) ∧
  (sessions (trace (snd (main Demo.boot))) =
     [ ("/repo/tests/e2e/test_c", Some "/tmp/debugger-test-config-k0");
       ("/repo/tests/e2e/test_rs", Some "/tmp/debugger-test-config-k0");
       ("/repo/tests/e2e/hello_world.py", Some "/tmp/debugger-test-config-k0");
       ("/repo/tests/e2e/test_go", Some "/tmp/debugger-test-config-k0");
       ("/repo/tests/complex_app/main.py", Some "/tmp/debugger-test-config-k0") ]).
Proof. split; vm_compute; reflexivity. Qed.

(** ** Absent toolchains *)

Section Toolchains.
Context {h : Host}.


(** A tool that is not on the PATH: [check_call] raises. *)
Lemma check_call_absent cmd (w : World h) :
  which h (hd "" cmd) = false →
  subprocess_check_call cmd w = (Raise (FileNotFoundError (hd "" cmd)), w).
Proof. intros H. unfold subprocess_check_call. rewrite H. reflexivity. Qed.














End Toolchains.



(** ** Verification *)

Lemma session_last_output start_args expected l b c_output :
  session_of ("start" :: start_args) expected l b →
  last l = Some (["output"], c_output) →
  b = str_in expected (stdout c_output).
Proof.
  intros Hs Hlast. destruct Hs; cbn in Hlast; try discriminate Hlast.
  injection Hlast as <-. reflexivity.
Qed.

Lemma session_passed_output start_cmd expected l :
  session_of start_cmd expected l true →
  ∃ c_output, last l = Some (["output"], c_output).
Proof.
  intros Hs. inversion Hs; subst. eexists. reflexivity.
Qed.

(** C6. A scenario passes exactly when it fetched the output and the
    expected text stands in it literally, character for character, with
    nothing normalised.  A scenario that fails does not end the run: a
    harness that found the binary and ends through [sys.exit] has an entry
    for every scenario in its report, whichever of them failed. *)
Theorem verification_is_literal_containment (h : Host) (name src : string)
    (compiler : option (string → string → M h unit))
    (expected d : string) (args : option (list string)) (w : World h) :
  DEBUGGER_BIN h ∈ fs w →
  (∀ f, compiler = Some f → is_compiler f) →
  (∃ b l,
     runs (test_program name src compiler expected d args) w b l ∧
     (∀ c_output, last l = Some (["output"], c_output) →
        (b = true ↔ ∃ pre post, stdout c_output = pre +:+ expected +:+ post)) ∧
     (b = true → ∃ c_output, last l = Some (["output"], c_output))) ∧
  (∃ report r w',
     run_all w = (report, r, w') ∧ main w = (r, w') ∧
     (∀ code, r = Raise (SystemExit code) →
        map fst report = scenario_names ∧
        code = (if any_failed report then 1 else 0))).
Proof.
  intros Hbin Hc. split.
  - destruct (test_program_runs name src compiler expected d args w Hbin Hc)
      as (b & l & Hruns & Hshape).
    destruct (start_command_head (debuggee (h:=h) name src compiler) args)
      as [rest Hrest].
    rewrite Hrest in Hshape.
    exists b, l. split; [exact Hruns|]. split.
    + intros c_output Hlast.
      destruct Hshape as [[-> _] | Hs]; [discriminate Hlast|].
      rewrite (session_last_output rest expected l b c_output Hs Hlast).
      apply str_in_spec.
    + intros ->. destruct Hshape as [[_ Hb] | Hs]; [discriminate Hb|].
      eapply session_passed_output, Hs.
  - destruct (run_all_cases w) as (report & r & w' & Hrun & Hmain & Hcases).
    exists report, r, w'. split; [exact Hrun|]. split; [exact Hmain|].
    intros code ->.
    destruct Hcases
      as [(Hno & _) | [(_ & _ & (msg & Hmsg) & _)
           | (_ & d0 & content & evs & closing & _ & _ & _ & _ & _ & Hres)]].
    + contradiction.
    + discriminate Hmsg.
    + destruct Hres as [(Hnames & Hr & _) | (_ & Hr & _)];
        [|discriminate Hr].
      injection Hr as ->. split; [exact Hnames | reflexivity].
Qed.

(** On the demonstration host the Python scenario fetches the output,
    finds the expected text in it and passes; on the host whose [output]
    command prints nothing the scenarios that verify by [output] fail, and
    the run still goes through all five scenarios. *)
Lemma verification_is_literal_containment_witness :
  (∃ b l c_output,
     runs (test_program (h:=Demo.healthy) "test_py" "hello_world.py" None
             "Hello from Python! Sum is 30" "/tmp/env"
             (Some ["--adapter"; "debugpy"])) Demo.boot b l ∧
     last l = Some (["output"], c_output) ∧
     stdout c_output = "Hello from Python! Sum is 30" +:+ nl ∧
     b = true) ∧
  (∃ report w',
     run_all Demo.boot_wrong_output = (report, Raise (SystemExit 1), w') ∧
     map fst report = scenario_names ∧
     ("test_c", Failed) ∈ report ∧
     ("complex_python", Passed) ∈ report).
Proof.
  split.
  - destruct (verification_is_literal_containment Demo.healthy
                "test_py" "hello_world.py" None
                "Hello from Python! Sum is 30" "/tmp/env"
                (Some ["--adapter"; "debugpy"]) Demo.boot)
      as [(b & l & Hruns & Hiff & _) _].
    + vm_compute. reflexivity.
    + intros f Hf. discriminate Hf.
    + assert (Hl : l = answers (trace (snd
                 (test_program (h:=Demo.healthy) "test_py" "hello_world.py" None
                    "Hello from Python! Sum is 30" "/tmp/env"
                    (Some ["--adapter"; "debugpy"]) Demo.boot)))).
      { destruct Hruns as (w' & evs & Hm & Htr & <-). rewrite Hm. cbn [snd].
        rewrite Htr. cbn [Demo.boot Demo.start trace]. rewrite app_nil_r.
        reflexivity. }
      assert (Hlast : last l = Some (["output"],
                        Demo.done ("Hello from Python! Sum is 30" +:+ nl))).
      { rewrite Hl. vm_compute. reflexivity. }
      exists b, l, (Demo.done ("Hello from Python! Sum is 30" +:+ nl)).
      split; [exact Hruns|]. split; [exact Hlast|]. split; [reflexivity|].
      apply (Hiff _ Hlast). exists "", nl. reflexivity.
  - destruct (verification_is_literal_containment Demo.wrong_output
                "test_py" "hello_world.py" None
                "Hello from Python! Sum is 30" "/tmp/env"
                (Some ["--adapter"; "debugpy"]) Demo.boot_wrong_output)
      as [_ (report & r & w' & Hrun & _ & Hexit)].
    + vm_compute. reflexivity.
    + intros f Hf. discriminate Hf.
    + assert (Hr : r = Raise (SystemExit 1)).
      { replace r with (run_all Demo.boot_wrong_output).1.2
          by (rewrite Hrun; reflexivity).
        vm_compute. reflexivity. }
      subst r. destruct (Hexit 1 eq_refl) as [Hnames _].
      exists report, w'. split; [exact Hrun|]. split; [exact Hnames|].
      replace report with (run_all Demo.boot_wrong_output).1.1
        by (rewrite Hrun; reflexivity).
      split; vm_compute; repeat constructor.
Defined.

(** On a host whose [output] command prints nothing the first four
    scenarios fail their verification, and all five are run. *)
Example failed_verification_does_not_end_the_run :
  (run_all Demo.boot_wrong_output).1 =
    ([("test_c", Failed); ("test_rs", Failed); ("test_py", Failed);
      ("test_go", Failed); ("complex_python", Passed)],
     Raise (SystemExit 1)).
Proof. vm_compute. reflexivity. Qed.

(** * The rest of the harness *)

(** ** Every event of a run *)

Section Emits.
Context {h : Host} (P : Event → Prop).

Lemma emits_ret {A} (a : A) : emits (h:=h) P (ret a).
Proof. intros w. exists []. split; [reflexivity | constructor]. Qed.

Lemma emits_raise {A} e : emits (h:=h) (A:=A) P (raise e).
Proof. intros w. exists []. split; [reflexivity | constructor]. Qed.

Lemma emits_bind {A B} (m : M h A) (f : A → M h B) :
  emits P m → (∀ a, emits P (f a)) → emits P (bind m f).
Proof.
  intros Hm Hf w. rewrite bind_run. destruct (Hm w) as (evs1 & Ht1 & He1).
  destruct (m w) as [[a|e] w1]; cbn [snd] in *.
  - destruct (Hf a w1) as (evs2 & Ht2 & He2).
    exists (evs2 ++ evs1)%list. split.
    + rewrite Ht2, Ht1, List.app_assoc. reflexivity.
    + apply Forall_app. split; assumption.
  - exists evs1. split; assumption.
Qed.

Lemma emits_try_except {A} catches (body : M h A) handler :
  emits P body → (∀ e, emits P (handler e)) →
  emits P (try_except catches body handler).
Proof.
  intros Hb Hh w. unfold try_except. destruct (Hb w) as (evs1 & Ht1 & He1).
  destruct (body w) as [[a|e] w1]; cbn [snd] in *.
  - exists evs1. split; assumption.
  - destruct (catches e); [|exists evs1; split; assumption].
    destruct (Hh e w1) as (evs2 & Ht2 & He2).
    exists (evs2 ++ evs1)%list. split.
    + rewrite Ht2, Ht1, List.app_assoc. reflexivity.
    + apply Forall_app. split; assumption.
Qed.

Lemma emits_try_finally {A} (body : M h A) cleanup :
  emits P body → emits P cleanup → emits P (try_finally body cleanup).
Proof.
  intros Hb Hc w. unfold try_finally. destruct (Hb w) as (evs1 & Ht1 & He1).
  destruct (body w) as [r w1]; cbn [snd] in *.
  destruct (Hc w1) as (evs2 & Ht2 & He2).
  exists (evs2 ++ evs1)%list. split.
  - destruct (cleanup w1) as [[[]|e] w2]; cbn [snd] in *;
      rewrite Ht2, Ht1, List.app_assoc; reflexivity.
  - apply Forall_app. split; assumption.
Qed.

Lemma emits_emit e : P e → emits (h:=h) P (emit e).
Proof. intros He w. exists [e]. split; [reflexivity | repeat constructor; exact He]. Qed.

Lemma emits_os_path_exists p : emits (h:=h) P (os_path_exists p).
Proof. intros w. exists []. split; [reflexivity | constructor]. Qed.

Lemma emits_os_makedirs p : P (Makedirs p) → emits (h:=h) P (os_makedirs p).
Proof. intros He w. exists [Makedirs p]. split; [reflexivity | repeat constructor; exact He]. Qed.

Lemma emits_write_file p c : P (WriteFile p c) → emits (h:=h) P (write_file p c).
Proof. intros He w. exists [WriteFile p c]. split; [reflexivity | repeat constructor; exact He]. Qed.

Lemma emits_shutil_rmtree p : P (Rmtree p) → emits (h:=h) P (shutil_rmtree p).
Proof.
  intros He w. unfold shutil_rmtree. destruct (bool_decide (p ∈ fs w)).
  - exists [Rmtree p]. split; [reflexivity | repeat constructor; exact He].
  - exists []. split; [reflexivity | constructor].
Qed.

Lemma emits_check_call cmd :
  (∀ rc, P (CheckCall cmd rc)) → emits (h:=h) P (subprocess_check_call cmd).
Proof.
  intros He w. unfold subprocess_check_call. destruct (which h (hd "" cmd)).
  - destruct (tool h cmd (ext w)) as [rc e']. exists [CheckCall cmd rc].
    split; [destruct (rc =? 0); reflexivity | repeat constructor; apply He].
  - exists []. split; [reflexivity | constructor].
Qed.

Lemma emits_popen inv :
  (∀ c, P (Popen inv c)) → emits (h:=h) P (subprocess_Popen_communicate inv).
Proof.
  intros He w. unfold subprocess_Popen_communicate.
  destruct (bool_decide (hd "" (argv inv) ∈ fs w)).
  - destruct (debugger h inv (ext w)) as [c e']. exists [Popen inv c].
    split; [reflexivity | repeat constructor; apply He].
  - exists []. split; [reflexivity | constructor].
Qed.

Lemma emits_mkdtemp prefix :
  (∀ name, P (Mkdtemp (path_join (gettempdir h) (prefix +:+ name)))) →
  emits (h:=h) P (tempfile_mkdtemp prefix).
Proof.
  intros He w. unfold tempfile_mkdtemp.
  destruct (mkdtemp_pick _ _ _ _ _) as [[f|] e'] eqn:Hpick.
  - apply mkdtemp_pick_fresh in Hpick. destruct Hpick as [_ [name ->]].
    eexists [_]. split; [reflexivity | repeat constructor; apply He].
  - exists []. split; [reflexivity | constructor].
Qed.

End Emits.

Ltac emits_step :=
  first
    [ apply emits_ret | apply emits_raise
    | apply emits_os_path_exists
    | apply emits_emit
    | apply emits_os_makedirs
    | apply emits_write_file
    | apply emits_shutil_rmtree
    | apply emits_check_call; intros ?
    | apply emits_popen; intros ?
    | apply emits_mkdtemp; intros ?
    | apply emits_try_except; [|intros ?]
    | apply emits_try_finally
    | match goal with
      | |- emits _ (if ?b then _ else _) => destruct b
      | |- emits _ (match ?x with _ => _ end) => destruct x
      end
    | apply emits_bind; [|intros ?]
    | progress cbn beta iota ].

Section MainEmits.
Context {h : Host}.

Lemma harness_print msg : harness_event h (Print ("[TEST] " +:+ msg)).
Proof. apply prefix_append. Qed.

Lemma log_emits msg : emits (harness_event h) (log (h:=h) msg).
Proof. apply emits_emit, harness_print. Qed.

Lemma run_debugger_command_emits cmd d i :
  debugger_command cmd i →
  emits (harness_event h) (run_debugger_command (h:=h) cmd d i).
Proof.
  intros Hcmd. unfold run_debugger_command.
  repeat first [apply log_emits | emits_step].
  all: try (cbn [harness_event argv cwd input app]; exists cmd;
            split; [reflexivity|]; split; [reflexivity | exact Hcmd]).
  all: cbn [harness_event]; rewrite lookup_insert_eq; cbn [default];
       eexists; left; reflexivity.
Qed.

Lemma subcommand_is_command cmd :
  cmd ∈ [ ["stop"]; ["breakpoint"; "add"; "main"]; ["continue"]; ["await"];
          ["threads"]; ["locals"]; ["output"] ] →
  debugger_command cmd None.
Proof. intros H. left. split; [reflexivity|]. left. exact H. Qed.

Lemma start_is_command target args :
  debugger_command
    (if args_truthy args
     then (["start"; target; "--stop-on-entry"] ++ default [] args)%list
     else ["start"; target; "--stop-on-entry"]) None.
Proof.
  left. split; [reflexivity|]. right.
  destruct (args_truthy args); eexists _, _; (split; [reflexivity|]); left.
Qed.

Lemma compile_emits (f : string → string → M h unit) source output :
  f = compile_c ∨ f = compile_rust ∨ f = compile_go →
  emits (harness_event h) (f source output).
Proof.
  intros [-> | [-> | ->]]; unfold compile_c, compile_rust, compile_go;
    repeat first [apply log_emits | emits_step];
    cbn [harness_event]; left; exists source, output; tauto.
Qed.

Lemma check_debugpy_emits : emits (harness_event h) (check_debugpy (h:=h)).
Proof.
  unfold check_debugpy. repeat emits_step.
  cbn [harness_event]. right. right. reflexivity.
Qed.

Lemma check_delve_emits : emits (harness_event h) (check_delve (h:=h)).
Proof.
  unfold check_delve. repeat emits_step.
  cbn [harness_event]. right. left. reflexivity.
Qed.

Lemma setup_config_emits : emits (harness_event h) (setup_config (h:=h)).
Proof.
  unfold setup_config. repeat emits_step; cbn [harness_event].
  - eexists. reflexivity.
  - eexists. right. reflexivity.
  - right. eexists. split; reflexivity.
Qed.

Lemma test_program_emits name src compiler expected d args :
  (∀ f, compiler = Some f →
        f = compile_c ∨ f = compile_rust ∨ f = compile_go) →
  emits (harness_event h) (test_program (h:=h) name src compiler expected d args).
Proof.
  intros Hc. unfold test_program.
  apply emits_bind; [apply log_emits | intros _].
  apply emits_bind.
  - destruct compiler as [f|]; [|apply emits_ret].
    apply emits_try_except.
    + apply emits_bind; [|intros ?; apply emits_ret].
      apply compile_emits, Hc. reflexivity.
    + intros e. apply emits_bind; [apply log_emits | intros ?; apply emits_ret].
  - intros [binary_path|result]; [|apply emits_ret].
    repeat first
      [ apply log_emits
      | apply run_debugger_command_emits;
          first [ apply start_is_command
                | solve [apply subcommand_is_command; repeat constructor] ]
      | apply emits_ret
      | apply emits_emit; reflexivity
      | match goal with
        | |- emits _ (if ?b then _ else _) => destruct b
        | |- emits _ (match ?x with _ => _ end) => destruct x
        end
      | apply emits_bind; [|intros ?]
      | progress cbn beta iota ].
Qed.

Lemma test_complex_python_emits d :
  emits (harness_event h) (test_complex_python (h:=h) d).
Proof.
  unfold test_complex_python.
  repeat first
    [ apply log_emits
    | apply run_debugger_command_emits;
        first [ solve [apply subcommand_is_command; repeat constructor]
              | solve [right; split; reflexivity]
              | solve [left; split; [reflexivity|]; right; eexists _, _;
                       split; [reflexivity|]; repeat constructor] ]
    | apply emits_ret | apply emits_os_path_exists
    | match goal with
      | |- emits _ (if ?b then _ else _) => destruct b
      | |- emits _ (match ?x with _ => _ end) => destruct x
      end
    | apply emits_bind; [|intros ?]
    | progress cbn beta iota ].
Qed.

(** Every event of a run of [main] is one of [harness_event]. *)
Lemma main_emits : emits (harness_event h) (main (h:=h)).
Proof.
  unfold main, main_try, destroy, sys_exit.
  repeat first
    [ apply log_emits
    | apply setup_config_emits
    | apply check_debugpy_emits | apply check_delve_emits
    | apply test_complex_python_emits
    | apply test_program_emits; intros ? [= <-]; tauto
    | apply test_program_emits; intros ?; discriminate
    | apply emits_ret | apply emits_raise | apply emits_os_path_exists
    | apply emits_write_file; left; split; reflexivity
    | apply emits_shutil_rmtree; exact I
    | apply emits_try_finally
    | match goal with
      | |- emits _ (if ?b then _ else _) => destruct b
      end
    | apply emits_bind; [|intros ?]
    | progress cbn beta iota ].
Qed.

Lemma main_events (w : World h) :
  ∃ evs, trace (snd (main w)) = (evs ++ trace w)%list ∧
         ∀ e, e ∈ evs → harness_event h e.
Proof.
  destruct (main_emits w) as (evs & Htr & Hall).
  exists evs. split; [exact Htr|]. apply Forall_forall, Hall.
Qed.

End MainEmits.

(** X1. Everything a run of the harness prints goes through [log]: the
    text of every call of [print] begins with the tag [[TEST] ].  The tag
    stands once per call: nothing is said of the later lines of a message
    that spans several, such as the output of a command. *)
Theorem every_printed_message_is_tagged (h : Host) (w : World h) :
  ∃ evs,
    trace (snd (main w)) = (evs ++ trace w)%list ∧
    ∀ text, Print text ∈ evs → ∃ msg, text = "[TEST] " +:+ msg.
Proof.
  destruct (main_events w) as (evs & Htr & Hall).
  exists evs. split; [exact Htr|].
  intros text Hin. apply prefix_spec, (Hall _ Hin).
Qed.

(** X2. Every child process a run spawns through [Popen] is the debugger
    binary, run in the test directory, with one of the commands of the
    harness: [stop], [breakpoint add main], [continue], [await],
    [threads], [locals], [output], each without standard input; a [start]
    that stops on entry; or no subcommand and the script of the complex
    application on standard input. *)
Theorem children_are_debugger_commands (h : Host) (w : World h) :
  ∃ evs,
    trace (snd (main w)) = (evs ++ trace w)%list ∧
    ∀ inv c, Popen inv c ∈ evs →
      cwd inv = TEST_DIR h ∧
      ∃ cmd, argv inv = DEBUGGER_BIN h :: cmd ∧
        ((input inv = None ∧
          (cmd ∈ [ ["stop"]; ["breakpoint"; "add"; "main"]; ["continue"];
                   ["await"]; ["threads"]; ["locals"]; ["output"] ] ∨
           ∃ target rest,
             cmd = "start" :: target :: rest ∧ "--stop-on-entry" ∈ rest)) ∨
         (cmd = [] ∧ input inv = Some input_script)).
Proof.
  destruct (main_events w) as (evs & Htr & Hall).
  exists evs. split; [exact Htr|].
  intros inv c Hin. destruct (Hall _ Hin) as (cmd & Hargv & Hcwd & Hcmd).
  split; [exact Hcwd|]. exists cmd. split; [exact Hargv | exact Hcmd].
Qed.

(** X3. The only tools a run starts through [check_call] are the three
    compilers, each with its fixed options, and the two probes,
    [dlv version] and [python -c "import debugpy"]. *)
Theorem tools_are_compilers_and_probes (h : Host) (w : World h) :
  ∃ evs,
    trace (snd (main w)) = (evs ++ trace w)%list ∧
    ∀ cmd rc, CheckCall cmd rc ∈ evs →
      (∃ source output,
         cmd = [GCC; "-g"; "-o"; output; source] ∨
         cmd = [RUSTC; "-g"; "-o"; output; source] ∨
         cmd = [GO; "build"; "-gcflags=all=-N -l"; "-o"; output; source]) ∨
      cmd = ["dlv"; "version"] ∨
      cmd = [PYTHON h; "-c"; "import debugpy"].
Proof.
  destruct (main_events w) as (evs & Htr & Hall).
  exists evs. split; [exact Htr|].
  intros cmd rc Hin. exact (Hall _ Hin).
Qed.

(** X4. The files the harness itself writes are the Python debuggee
    [hello_world.py] in the test directory and a [config.toml] in the
    [debugger-cli] directory of an environment, each with its fixed
    content; the directories it makes are [runtime] and [debugger-cli]
    directories; the temporary directories it asks for are named
    [debugger-test-config-...] in the system's temporary directory; and
    whenever it sleeps it sleeps one second. *)
Theorem files_the_harness_writes (h : Host) (w : World h) :
  ∃ evs,
    trace (snd (main w)) = (evs ++ trace w)%list ∧
    (∀ p content, WriteFile p content ∈ evs →
       (p = path_join (TEST_DIR h) "hello_world.py" ∧
        content = hello_world_py) ∨
       (∃ d, p = path_join (path_join d "debugger-cli") "config.toml" ∧
             content = config_content (PYTHON h))) ∧
    (∀ p, Makedirs p ∈ evs →
       ∃ d, p = path_join d "runtime" ∨ p = path_join d "debugger-cli") ∧
    (∀ p, Mkdtemp p ∈ evs →
       ∃ name, p = path_join (gettempdir h) ("debugger-test-config-" +:+ name)) ∧
    (∀ seconds, Sleep seconds ∈ evs → seconds = 1).
Proof.
  destruct (main_events w) as (evs & Htr & Hall).
  exists evs. split; [exact Htr|].
  repeat split; intros; match goal with H : _ ∈ evs |- _ => exact (Hall _ H) end.
Qed.

(** ** Provisioning the environment *)

Lemma dir_prefix_extends d : ∃ s, dir_prefix d = d +:+ s.
Proof.
  unfold dir_prefix. destruct (ends_with "/" d).
  - exists "". induction d as [|c d IH]; [reflexivity|].
    rewrite append_cons, <- IH. reflexivity.
  - exists "/". reflexivity.
Qed.

(** A relative name joined to a relative name joined to a directory lies
    beneath the directory. *)
Lemma path_join_twice_under d a b :
  d ≠ "" → a ≠ "" → String.prefix "/" a = false → String.prefix "/" b = false →
  under d (path_join (path_join d a) b).
Proof.
  intros Hd Ha Hra Hrb. right.
  rewrite (path_join_relative (path_join d a) b) by
    (try apply path_join_nonempty; assumption).
  destruct (dir_prefix_extends (path_join d a)) as [s ->].
  rewrite (path_join_relative d a Hd Hra), !append_assoc.
  apply prefix_append.
Qed.

(** X5. [setup_config] either returns a directory that did not exist,
    named [debugger-test-config-...] in the system's temporary directory,
    now there with [debugger-cli/config.toml] beneath it, the file holding
    the configuration that names the interpreter of the harness; or it
    raises [FileExistsError], no usable name being found, and has changed
    no path and done nothing.  It removes no path. *)
Theorem setup_config_provisions (h : Host) (w : World h) :
  ∃ r w1,
    setup_config w = (r, w1) ∧ fs w ⊆ fs w1 ∧
    match r with
    | Ret d =>
        (∃ name,
           d = path_join (gettempdir h) ("debugger-test-config-" +:+ name)) ∧
        (d ∉ fs w) ∧ d ∈ fs w1 ∧
        path_join d "debugger-cli" ∈ fs w1 ∧
        path_join (path_join d "debugger-cli") "config.toml" ∈ fs w1 ∧
        under d (path_join (path_join d "debugger-cli") "config.toml") ∧
        trace w1 =
          WriteFile (path_join (path_join d "debugger-cli") "config.toml")
            (config_content (PYTHON h))
          :: Makedirs (path_join d "debugger-cli")
          :: Mkdtemp d :: trace w
    | Raise e =>
        (∃ msg, e = FileExistsError msg) ∧ fs w1 = fs w ∧ trace w1 = trace w
    end.
Proof.
  unfold setup_config. rewrite bind_run. unfold tempfile_mkdtemp.
  destruct (mkdtemp_pick TMP_MAX (gettempdir h) "debugger-test-config-"
              (fs w) (ext w)) as [[d|] e'] eqn:Hpick.
  - apply mkdtemp_pick_fresh in Hpick. destruct Hpick as [Hfresh [name Hname]].
    assert (Hd : d ≠ "").
    { rewrite Hname. apply path_join_nonempty. rewrite append_cons. discriminate. }
    rewrite bind_run. unfold os_makedirs at 1. cbn beta iota.
    rewrite bind_run. unfold write_file at 1. cbn beta iota. rewrite ret_run.
    eexists _, _. split; [reflexivity|]. cbn [fs trace].
    split; [intros x Hx; apply elem_of_union_l, elem_of_union_l,
              elem_of_union_l, Hx|].
    split; [exists name; exact Hname|].
    split; [exact Hfresh|].
    split; [apply elem_of_union_l, elem_of_union_l, elem_of_union_r,
              elem_of_singleton; reflexivity|].
    split; [apply elem_of_union_l, elem_of_union_r, elem_of_list_to_set; left|].
    split; [apply elem_of_union_r, elem_of_singleton; reflexivity|].
    split; [|reflexivity].
    apply path_join_twice_under; [exact Hd | discriminate | reflexivity..].
  - eexists _, _. split; [reflexivity|]. cbn [fs trace].
    split; [reflexivity|]. split; [eexists; reflexivity|]. split; reflexivity.
Qed.

(** X6. Provisioning and cleanup compose: after a [setup_config] that
    returned, the [shutil.rmtree] of [main]'s [finally] clause does not
    raise; it leaves nothing at or beneath the directory, the
    configuration file included, and keeps every path that was there
    before and is not beneath the directory. *)
Theorem setup_then_destroy (h : Host) (w : World h) (d : string)
    (w1 : World h) :
  setup_config w = (Ret d, w1) →
  ∃ w2,
    (config_dir ← setup_config; destroy config_dir) w = (Ret tt, w2) ∧
    trace w2 = Rmtree d :: trace w1 ∧
    (∀ p, under d p → p ∉ fs w2) ∧
    (path_join (path_join d "debugger-cli") "config.toml" ∉ fs w2) ∧
    (∀ p, p ∈ fs w → ¬ under d p → p ∈ fs w2).
Proof.
  intros Hsetup.
  destruct (setup_config_cases w)
    as [(msg & w0 & Hs & _)
       | (d0 & w0 & content & Hs & Hfresh & Hd & Hin1 & Hfs1 & Htr1)];
    rewrite Hs in Hsetup; [discriminate Hsetup|].
  injection Hsetup as <- <-.
  rewrite bind_run, Hs, (destroy_present d0 w0 Hin1).
  eexists. split; [reflexivity|]. cbn [trace fs].
  split; [reflexivity|].
  split; [intros p Hp; apply not_under_filter, Hp|].
  split.
  - apply not_under_filter, path_join_twice_under;
      [exact Hd | discriminate | reflexivity..].
  - intros p Hp Hn. apply elem_of_filter. split; [exact Hn | apply Hfs1, Hp].
Qed.

Lemma setup_then_destroy_witness :
  ∃ w2, (config_dir ← setup_config; destroy config_dir) Demo.boot = (Ret tt, w2) ∧
        ("/tmp/debugger-test-config-k0/debugger-cli/config.toml" ∉ fs w2).
Proof.
  destruct (setup_then_destroy Demo.healthy Demo.boot
              (match fst (setup_config Demo.boot) with Ret d => d | _ => "" end)
              (snd (setup_config Demo.boot)))
    as (w2 & Hrun & _).
  - vm_compute. reflexivity.
  - exists w2. split; [exact Hrun|].
    replace w2 with (snd ((config_dir ← setup_config; destroy config_dir) Demo.boot))
      by (rewrite Hrun; reflexivity).
    vm_compute. discriminate.
Defined.

(** ** The command channel, again *)

Lemma calls_app (a b : list Event) : calls (a ++ b) = (calls b ++ calls a)%list.
Proof. unfold calls. rewrite omap_app, rev_app_distr. reflexivity. Qed.

Lemma calls_cons e (t : list Event) :
  calls (e :: t) =
    (calls t ++ match popen_of e with Some ic => [ic] | None => [] end)%list.
Proof.
  change (e :: t) with ([e] ++ t)%list. rewrite calls_app.
  destruct e; reflexivity.
Qed.

Lemma calls_command_events h cmd d i c :
  calls (command_events h cmd d i c) = [(invocation h cmd d i, c)].
Proof.
  unfold command_events, calls.
  destruct (returncode c =? 0), (str_truthy d); reflexivity.
Qed.

Ltac read_calls :=
  repeat (rewrite calls_app || rewrite calls_cons
          || rewrite calls_command_events);
  cbn [popen_of app].

(** X7. With the binary in place [run_debugger_command] spawns one child
    and returns what it returned.  The child gets the command after the
    binary's path, the test directory as working directory, the given
    standard input, and the environment of the harness: every variable
    other than [XDG_CONFIG_HOME] and [XDG_RUNTIME_DIR] as the harness has
    it.  With an empty [config_dir] the environment is passed on
    unchanged, no directory is made and no path changes. *)
Theorem child_inherits_environment (h : Host) (cmd : list string)
    (d : string) (input_cmds : option string) (w : World h) :
  DEBUGGER_BIN h ∈ fs w →
  ∃ inv c w' evs,
    run_debugger_command cmd d input_cmds w
      = (Ret (succeeded c, stdout c, stderr c), w') ∧
    trace w' = (evs ++ trace w)%list ∧
    calls evs = [(inv, c)] ∧
    debugger h inv (ext w) = (c, ext w') ∧
    argv inv = DEBUGGER_BIN h :: cmd ∧
    cwd inv = TEST_DIR h ∧
    input inv = input_cmds ∧
    (∀ k, k ≠ "XDG_CONFIG_HOME" → k ≠ "XDG_RUNTIME_DIR" →
          env inv !! k = environ h !! k) ∧
    (d = "" →
     env inv = environ h ∧ fs w' = fs w ∧ Forall (λ e, ¬ is_makedirs e) evs).
Proof.
  intros Hbin.
  rewrite (run_debugger_command_eq cmd d input_cmds w Hbin).
  destruct (debugger h _ (ext w)) as [c e'] eqn:Hdbg.
  exists (invocation h cmd d input_cmds), c. eexists.
  exists (command_events h cmd d input_cmds c).
  split; [reflexivity|]. cbn [trace fs ext].
  split; [reflexivity|].
  split; [apply calls_command_events|].
  split; [exact Hdbg|].
  split; [reflexivity|]. split; [reflexivity|]. split; [reflexivity|].
  split.
  - intros k Hc Hr. unfold invocation. cbn [env].
    destruct (str_truthy d); [|reflexivity].
    rewrite !lookup_insert_ne by congruence. reflexivity.
  - intros ->. unfold invocation, runtime_dirs, command_events.
    cbn [str_truthy String.eqb negb env app].
    split; [reflexivity|]. split; [apply union_empty_r_L|].
    destruct (returncode c =? 0); cbn [app];
      repeat (apply List.Forall_cons; [intros []|]); apply List.Forall_nil.
Qed.

Lemma child_inherits_environment_witness :
  ∃ inv c w',
    run_debugger_command ["stop"] "" None Demo.boot
      = (Ret (succeeded c, stdout c, stderr c), w') ∧
    env inv = environ Demo.healthy.
Proof.
  destruct (child_inherits_environment Demo.healthy ["stop"] "" None Demo.boot)
    as (inv & c & w' & evs & Hrun & _ & _ & _ & _ & _ & _ & _ & Hempty).
  - vm_compute. reflexivity.
  - exists inv, c, w'. split; [exact Hrun|]. apply Hempty. reflexivity.
Defined.

(** X8. Without the binary [run_debugger_command] raises
    [FileNotFoundError] for the binary's path, after it has logged the
    command and made the runtime directory: no child is spawned and the
    host is as it was.  (The binary's path is taken not to be the runtime
    directory or one of its ancestors.) *)
Theorem command_without_binary_raises (h : Host) (cmd : list string)
    (d : string) (input_cmds : option string) (w : World h) :
  DEBUGGER_BIN h ∉ fs w →
  DEBUGGER_BIN h ∉ runtime_dirs d →
  ∃ w',
    run_debugger_command cmd d input_cmds w
      = (Raise (FileNotFoundError (DEBUGGER_BIN h)), w') ∧
    calls (trace w') = calls (trace w) ∧
    ext w' = ext w ∧
    fs w' = fs w ∪ runtime_dirs d.
Proof.
  intros Hbin Hrt.
  unfold run_debugger_command, runtime_dirs in *.
  destruct (str_truthy d) eqn:Hd.
  - unfold bind, log, emit, os_makedirs, ret, subprocess_Popen_communicate.
    cbn -[path_join parents DEBUGGER_BIN TEST_DIR String.concat].
    rewrite lookup_insert_eq. cbn [default].
    rewrite bool_decide_eq_false_2
      by (apply not_elem_of_union; split; assumption).
    eexists. split; [reflexivity|]. cbn [trace ext fs].
    split; [reflexivity|]. split; reflexivity.
  - unfold bind, log, emit, ret, subprocess_Popen_communicate.
    cbn -[path_join parents DEBUGGER_BIN TEST_DIR String.concat].
    rewrite bool_decide_eq_false_2 by exact Hbin.
    eexists. split; [reflexivity|]. cbn [trace ext fs].
    split; [reflexivity|]. split; [reflexivity|].
    rewrite union_empty_r_L. reflexivity.
Qed.

Lemma command_without_binary_raises_witness :
  ∃ w', run_debugger_command ["stop"] "/tmp/env" None
          (Demo.start Demo.healthy ∅ (Demo.Idle, 0%nat))
        = (Raise (FileNotFoundError "/repo/target/release/debugger"), w').
Proof.
  destruct (command_without_binary_raises Demo.healthy ["stop"] "/tmp/env"
              None (Demo.start Demo.healthy ∅ (Demo.Idle, 0%nat)))
    as (w' & Hrun & _).
  - vm_compute. discriminate.
  - vm_compute. discriminate.
  - exists w'. exact Hrun.
Defined.

(** ** The probes *)

(** X9. [check_delve] never raises: it returns [True] exactly when [dlv]
    is on the PATH and [dlv version] exits with 0, and a missing [dlv]
    runs nothing.  [check_debugpy] returns [True] exactly when the
    interpreter is there and [import debugpy] exits with 0, [False]
    exactly when the interpreter is there and the import exits with
    another status, and raises [FileNotFoundError], which it does not
    catch, exactly when the interpreter is not there. *)
Theorem probes_differ_on_a_missing_executable (h : Host) (w : World h) :
  (∃ b w',
     check_delve w = (Ret b, w') ∧
     (b = true ↔
      which h "dlv" = true ∧ (tool h ["dlv"; "version"] (ext w)).1 = 0) ∧
     (which h "dlv" = false → w' = w)) ∧
  (∃ r w',
     check_debugpy w = (r, w') ∧
     (r = Ret true ↔
      which h (PYTHON h) = true ∧
      (tool h [PYTHON h; "-c"; "import debugpy"] (ext w)).1 = 0) ∧
     (r = Ret false ↔
      which h (PYTHON h) = true ∧
      (tool h [PYTHON h; "-c"; "import debugpy"] (ext w)).1 ≠ 0) ∧
     (r = Raise (FileNotFoundError (PYTHON h)) ↔ which h (PYTHON h) = false) ∧
     (which h (PYTHON h) = false → w' = w)).
Proof.
  split.
  - unfold check_delve, try_except. rewrite bind_run.
    unfold subprocess_check_call. cbn [hd].
    destruct (which h "dlv").
    + destruct (tool h ["dlv"; "version"] (ext w)) as [rc e']. cbn [fst].
      destruct (rc =? 0) eqn:Hrc;
        cbn [is_CalledProcessError_or_FileNotFoundError]; rewrite ?ret_run;
        eexists _, _; (split; [reflexivity|]); (split; [|discriminate]).
      * apply Z.eqb_eq in Hrc. tauto.
      * apply Z.eqb_neq in Hrc. split; [discriminate | tauto].
    + cbn [is_CalledProcessError_or_FileNotFoundError]. rewrite ret_run.
      eexists _, _. split; [reflexivity|].
      split; [split; [discriminate | intros [? _]; discriminate] | reflexivity].
  - unfold check_debugpy, try_except. rewrite bind_run.
    unfold subprocess_check_call. cbn [hd].
    destruct (which h (PYTHON h)).
    + destruct (tool h [PYTHON h; "-c"; "import debugpy"] (ext w)) as [rc e'].
      cbn [fst].
      destruct (rc =? 0) eqn:Hrc; cbn [is_CalledProcessError]; rewrite ?ret_run;
        eexists _, _; (split; [reflexivity|]).
      * apply Z.eqb_eq in Hrc.
        repeat split; try discriminate; try tauto; try congruence;
          intros [_ ?]; contradiction.
      * apply Z.eqb_neq in Hrc.
        repeat split; try discriminate; try tauto; try congruence;
          intros [_ ?]; contradiction.
    + cbn [is_CalledProcessError]. eexists _, _. split; [reflexivity|].
      repeat split; try discriminate; try tauto; try congruence;
        intros [? _]; discriminate.
Qed.

(** ** The build step as a gate *)

Section BuildGate.
Context {h : Host}.

Lemma run_debugger_command_extends cmd d i :
  emits (λ _, True) (run_debugger_command (h:=h) cmd d i).
Proof.
  unfold run_debugger_command, log.
  repeat first [exact I | emits_step].
Qed.

(** A scenario whose build step logs a line and runs a tool: the debugger
    is driven exactly when the tool is there and exits with 0. *)
Lemma build_gate (line : string → string → string)
    (cmd : string → string → list string) name src expected d args
    (w : World h) :
  DEBUGGER_BIN h ∈ fs w →
  ∃ b l,
    runs (test_program name src
            (Some (λ source output,
                     log (line source output);;
                     subprocess_check_call (cmd source output)))
            expected d args) w b l ∧
    (l = [] ↔
     which h (hd "" (cmd (path_join (TEST_DIR h) src)
                         (path_join (TEST_DIR h) name))) = false ∨
     (tool h (cmd (path_join (TEST_DIR h) src) (path_join (TEST_DIR h) name))
        (ext w)).1 ≠ 0) ∧
    (l = [] → b = false).
Proof.
  intros Hbin.
  set (f := λ source output,
              log (h:=h) (line source output);;
              subprocess_check_call (cmd source output)).
  assert (Hf : is_compiler f) by apply logged_check_call_is_compiler.
  destruct (test_program_session name src (Some f) expected d args w Hbin)
    as (b & w' & evs & Hrun & Htr & _ & _ & _ & Hshape).
  { intros ? [= <-]. exact Hf. }
  exists b, (answers evs). split; [exists w', evs; auto|].
  split.
  2:{ intros Hl. destruct Hshape as [[_ Hb] | Hs]; [exact Hb|].
      rewrite Hl in Hs. inversion Hs. }
  unfold test_program in Hrun. rewrite bind_run, log_run in Hrun.
  cbn beta iota in Hrun. rewrite bind_run in Hrun.
  unfold try_except in Hrun. rewrite bind_run in Hrun.
  unfold f at 1 in Hrun. rewrite bind_run, log_run in Hrun.
  cbn beta iota in Hrun.
  set (c := cmd (path_join (TEST_DIR h) src) (path_join (TEST_DIR h) name)) in *.
  unfold subprocess_check_call in Hrun. cbn [ext fs trace] in Hrun.
  destruct (which h (hd "" c)) eqn:Hwhich.
  2:{ cbn [is_Exception] in Hrun. rewrite bind_run, log_run, ret_run in Hrun.
      cbn beta iota in Hrun. rewrite ret_run in Hrun.
      injection Hrun as <- <-. cbn [trace] in Htr.
      split; [intros _; left; reflexivity|]. intros _.
      change (?a :: ?b :: ?c :: trace w) with ([a; b; c] ++ trace w)%list in Htr.
      apply app_inv_tail in Htr. subst evs. reflexivity. }
  destruct (tool h c (ext w)) as [rc e'] eqn:Htool. cbn [fst].
  destruct (rc =? 0) eqn:Hrc.
  2:{ cbn [is_Exception] in Hrun. rewrite bind_run, log_run, ret_run in Hrun.
      cbn beta iota in Hrun. rewrite ret_run in Hrun.
      injection Hrun as <- <-. cbn [trace] in Htr.
      apply Z.eqb_neq in Hrc.
      split; [intros _; right; exact Hrc|]. intros _.
      change (?a :: ?b :: ?c :: ?d :: trace w)
        with ([a; b; c; d] ++ trace w)%list in Htr.
      apply app_inv_tail in Htr. subst evs. reflexivity. }
  apply Z.eqb_eq in Hrc. subst rc.
  rewrite ret_run in Hrun. cbn beta iota in Hrun.
  rewrite bind_run, run_debugger_command_eq in Hrun by exact Hbin.
  cbn [fs ext trace] in Hrun.
  destruct (debugger h _ e') as [c0 e0]. cbn beta iota in Hrun.
  match type of Hrun with
  | ?m ?w2 = _ =>
      assert (Hm : emits (λ _, True) m)
        by (repeat first [ exact I | apply run_debugger_command_extends
                         | emits_step ]);
      destruct (Hm w2) as (evs2 & Htr2 & _)
  end.
  rewrite Hrun in Htr2. cbn [snd trace] in Htr2. rewrite Htr in Htr2.
  assert (Hevs : evs = (evs2 ++ command_events h ["stop"] d None c0 ++
                        [ CheckCall c 0;
                          Print ("[TEST] " +:+ line (path_join (TEST_DIR h) src)
                                                   (path_join (TEST_DIR h) name));
                          Print ("[TEST] " +:+ "=== Testing " +:+ name
                                 +:+ " ===") ])%list).
  { apply (app_inv_tail (trace w)). rewrite Htr2, <- !List.app_assoc.
    reflexivity. }
  split.
  - intros Hl. exfalso. rewrite Hevs in Hl.
    rewrite !answers_app, answers_command_events in Hl.
    apply (f_equal (@length _)) in Hl. rewrite !length_app in Hl.
    cbn [length] in Hl. lia.
  - intros [Hno | Hrc]; [discriminate Hno | contradiction Hrc; reflexivity].
Qed.

End BuildGate.

(** X10. The build step is a gate.  A scenario built with [compile_c],
    [compile_rust] or [compile_go] issues no debugger command at all
    exactly when its compiler is not on the PATH or exits with a status
    other than 0, and it then returns [False]; after a build that
    succeeded the debugger is driven. *)
Theorem debugger_is_driven_iff_the_build_succeeds (h : Host)
    (name src expected d : string) (args : option (list string))
    (w : World h) :
  DEBUGGER_BIN h ∈ fs w →
  (∃ b l,
     runs (test_program name src (Some compile_c) expected d args) w b l ∧
     (l = [] ↔
      which h GCC = false ∨
      (tool h [GCC; "-g"; "-o"; path_join (TEST_DIR h) name;
               path_join (TEST_DIR h) src] (ext w)).1 ≠ 0) ∧
     (l = [] → b = false)) ∧
  (∃ b l,
     runs (test_program name src (Some compile_rust) expected d args) w b l ∧
     (l = [] ↔
      which h RUSTC = false ∨
      (tool h [RUSTC; "-g"; "-o"; path_join (TEST_DIR h) name;
               path_join (TEST_DIR h) src] (ext w)).1 ≠ 0) ∧
     (l = [] → b = false)) ∧
  (∃ b l,
     runs (test_program name src (Some compile_go) expected d args) w b l ∧
     (l = [] ↔
      which h GO = false ∨
      (tool h [GO; "build"; "-gcflags=all=-N -l"; "-o";
               path_join (TEST_DIR h) name; path_join (TEST_DIR h) src]
         (ext w)).1 ≠ 0) ∧
     (l = [] → b = false)).
Proof.
  intros Hbin. split; [|split].
  - exact (build_gate
             (λ source output,
                "Compiling C: " +:+ String.concat " " [GCC; "-g"; "-o"; output; source])
             (λ source output, [GCC; "-g"; "-o"; output; source])
             name src expected d args w Hbin).
  - exact (build_gate
             (λ source output,
                "Compiling Rust: " +:+ String.concat " " [RUSTC; "-g"; "-o"; output; source])
             (λ source output, [RUSTC; "-g"; "-o"; output; source])
             name src expected d args w Hbin).
  - exact (build_gate
             (λ source output,
                "Compiling Go: " +:+ String.concat " "
                  [GO; "build"; "-gcflags=all=-N -l"; "-o"; output; source])
             (λ source output,
                [GO; "build"; "-gcflags=all=-N -l"; "-o"; output; source])
             name src expected d args w Hbin).
Qed.

Lemma debugger_is_driven_iff_the_build_succeeds_witness :
  ∃ b l,
    runs (test_program (h:=Demo.without_gcc) "test_c" "hello_world.c"
            (Some compile_c) "Hello from C! Sum is 30" "/tmp/env" None)
         Demo.boot_without_gcc b l ∧
    l = [].
Proof.
  destruct (debugger_is_driven_iff_the_build_succeeds Demo.without_gcc
              "test_c" "hello_world.c" "Hello from C! Sum is 30" "/tmp/env"
              None Demo.boot_without_gcc)
    as [(b & l & Hruns & Hiff & _) _].
  - vm_compute. reflexivity.
  - exists b, l. split; [exact Hruns|]. apply Hiff. left. reflexivity.
Defined.

(** ** What decides a scenario *)

(** X11. A scenario passes exactly when it issued its ten commands, in
    their order ([stop], [start], [breakpoint add main], [continue],
    [await], [threads], [locals], [continue], [await], [output]), the
    second, third, fourth, fifth, seventh and eighth of them exited with
    0, and the expected text stands in what [output] printed. *)
Theorem test_program_passes_iff (h : Host) (name src : string)
    (compiler : option (string → string → M h unit))
    (expected d : string) (args : option (list string)) (w : World h) :
  DEBUGGER_BIN h ∈ fs w →
  (∀ f, compiler = Some f → is_compiler f) →
  ∃ b l,
    runs (test_program name src compiler expected d args) w b l ∧
    (b = true ↔
     ∃ c_stop c_start c_bp c_cont c_await c_threads c_locals c_finish
       c_exit c_output,
       l = [ (["stop"], c_stop);
             (start_command (debuggee (h:=h) name src compiler) args, c_start);
             (["breakpoint"; "add"; "main"], c_bp); (["continue"], c_cont);
             (["await"], c_await); (["threads"], c_threads);
             (["locals"], c_locals); (["continue"], c_finish);
             (["await"], c_exit); (["output"], c_output) ] ∧
       succeeded c_start = true ∧ succeeded c_bp = true ∧
       succeeded c_cont = true ∧ succeeded c_await = true ∧
       succeeded c_locals = true ∧ succeeded c_finish = true ∧
       str_in expected (stdout c_output) = true).
Proof.
  intros Hbin Hc.
  destruct (test_program_runs name src compiler expected d args w Hbin Hc)
    as (b & l & Hruns & Hshape).
  exists b, l. split; [exact Hruns|]. split.
  - intros ->. destruct Hshape as [[_ Hb] | Hs]; [discriminate Hb|].
    inversion Hs; subst. eexists _, _, _, _, _, _, _, _, _, _.
    split; [reflexivity|]. auto 10.
  - intros (c0 & c1 & c2 & c3 & c4 & c5 & c6 & c7 & c8 & c9 & -> & H1 & H2
            & H3 & H4 & H6 & H7 & H9).
    destruct Hshape as [[Hl _] | Hs]; [discriminate Hl|].
    inversion Hs; subst. exact H9.
Qed.

Lemma test_program_passes_iff_witness :
  ∃ b l,
    runs (test_program (h:=Demo.healthy) "test_py" "hello_world.py" None
            "Hello from Python! Sum is 30" "/tmp/env"
            (Some ["--adapter"; "debugpy"])) Demo.boot b l ∧
    (b = true → length l = 10%nat).
Proof.
  destruct (test_program_passes_iff Demo.healthy
              "test_py" "hello_world.py" None
              "Hello from Python! Sum is 30" "/tmp/env"
              (Some ["--adapter"; "debugpy"]) Demo.boot)
    as (b & l & Hruns & Hiff).
  - vm_compute. reflexivity.
  - intros f Hf. discriminate Hf.
  - exists b, l. split; [exact Hruns|]. intros Hb.
    destruct (proj1 Hiff Hb)
      as (c0 & c1 & c2 & c3 & c4 & c5 & c6 & c7 & c8 & c9 & Hl & _).
    rewrite Hl. reflexivity.
Defined.

(** X12. A scenario fails fast and issues ten commands at most: when
    [start], [breakpoint add], the first [continue], the first [await],
    [locals] or the second [continue] exits with a status other than 0,
    that command is the last one issued and the scenario returns
    [False]. *)
Theorem test_program_fails_fast (h : Host) (name src : string)
    (compiler : option (string → string → M h unit))
    (expected d : string) (args : option (list string)) (w : World h) :
  DEBUGGER_BIN h ∈ fs w →
  (∀ f, compiler = Some f → is_compiler f) →
  ∃ b l,
    runs (test_program name src compiler expected d args) w b l ∧
    (length l ≤ 10)%nat ∧
    ∀ (i : nat) cmd c,
      i ∈ [1; 2; 3; 4; 6; 7]%nat →
      l !! i = Some (cmd, c) → succeeded c = false →
      b = false ∧ length l = S i.
Proof.
  intros Hbin Hc.
  destruct (test_program_runs name src compiler expected d args w Hbin Hc)
    as (b & l & Hruns & Hshape).
  exists b, l. split; [exact Hruns|].
  destruct Hshape as [[-> ->] | Hs].
  - split; [cbn; lia|]. intros i cmd c _ Hl. destruct i; discriminate Hl.
  - split; [destruct Hs; cbn; lia|].
    intros i cmd c Hi Hl Hfail.
    repeat (apply elem_of_cons in Hi; destruct Hi as [-> | Hi]);
      [.. | apply elem_of_nil in Hi; contradiction];
      destruct Hs; cbn in Hl; try discriminate Hl;
      injection Hl as <- <-; first [split; reflexivity | congruence].
Qed.

Lemma test_program_fails_fast_witness :
  ∃ b l,
    runs (test_program (h:=Demo.locals_broken) "test_py" "hello_world.py" None
            "Hello from Python! Sum is 30" "/tmp/env"
            (Some ["--adapter"; "debugpy"])) Demo.boot_locals_broken b l ∧
    (length l ≤ 10)%nat.
Proof.
  destruct (test_program_fails_fast Demo.locals_broken
              "test_py" "hello_world.py" None
              "Hello from Python! Sum is 30" "/tmp/env"
              (Some ["--adapter"; "debugpy"]) Demo.boot_locals_broken)
    as (b & l & Hruns & Hlen & _).
  - vm_compute. reflexivity.
  - intros f Hf. discriminate Hf.
  - exists b, l. split; assumption.
Defined.




(** X14. The complex application.  When [main.py] is not there
    [test_complex_python] returns [False] and spawns no child.  When it
    is there, the children are [stop], then [start] of [main.py] with the
    debugpy adapter; when that [start] fails they are all and the result
    is [False]; otherwise one more child follows, with no subcommand and
    the script on standard input, and the result is whether
    [Complex App Finished] stands in what that child printed, whatever
    its exit code. *)
Theorem complex_scenario_verdict (h : Host) (d : string) (w : World h) :
  DEBUGGER_BIN h ∈ fs w →
  ∃ b w' evs,
    test_complex_python d w = (Ret b, w') ∧
    trace w' = (evs ++ trace w)%list ∧
    (path_join (path_join_all (PROJECT_ROOT h) ["tests"; "complex_app"])
       "main.py" ∉ fs w →
     calls evs = [] ∧ b = false ∧ fs w' = fs w) ∧
    (path_join (path_join_all (PROJECT_ROOT h) ["tests"; "complex_app"])
       "main.py" ∈ fs w →
     ∃ c_stop c_start rest,
       calls evs = (invocation h ["stop"] d None, c_stop)
                   :: (invocation h (complex_start_command h) d None, c_start)
                   :: rest ∧
       ((succeeded c_start = false ∧ rest = [] ∧ b = false) ∨
        (succeeded c_start = true ∧
         ∃ c_script,
           rest = [(invocation h [] d (Some input_script), c_script)] ∧
           b = str_in "Complex App Finished" (stdout c_script)))).
Proof.
  intros Hbin. unfold test_complex_python. step_log.
  rewrite bind_run. unfold os_path_exists at 1. cbn [fs].
  destruct (decide (path_join (path_join_all (PROJECT_ROOT h)
                      ["tests"; "complex_app"]) "main.py" ∈ fs w)) as [Hin|Hout].
  - rewrite bool_decide_eq_true_2 by exact Hin. cbn [negb]; cbn beta iota.
    step_cmd c0 e0. step_log. step_cmd c1 e1. branch c1 H1.
    + step_cmd c2 e2.
      destruct (str_in "Complex App Finished" (stdout c2)) eqn:H2;
        cbn [negb]; cbn beta iota; repeat step_log; rewrite ?ret_run;
        eexists _, _, _; (split; [reflexivity|]); cbn [trace fs];
        (split; [trace_ext|]); (split; [intros; contradiction|]);
        intros _; exists c0, c1; eexists; read_calls;
        (split; [reflexivity|]); right; (split; [exact H1|]);
        exists c2; (split; [reflexivity|]); symmetry; exact H2.
    + rewrite ?ret_run. eexists _, _, _. split; [reflexivity|]. cbn [trace fs].
      split; [trace_ext|]. split; [intros; contradiction|].
      intros _. exists c0, c1. eexists. read_calls.
      split; [reflexivity|]. left. auto.
  - rewrite bool_decide_eq_false_2 by exact Hout. cbn [negb]; cbn beta iota.
    step_log. rewrite ?ret_run. eexists _, _, _. split; [reflexivity|].
    cbn [trace fs]. split; [trace_ext|]. split; [|intros; contradiction].
    intros _. read_calls. auto.
Qed.

Lemma complex_scenario_verdict_witness :
  ∃ b w', test_complex_python "/tmp/env" Demo.boot = (Ret b, w') ∧
          length (calls (trace w')) = 3%nat.
Proof.
  destruct (complex_scenario_verdict Demo.healthy "/tmp/env" Demo.boot)
    as (b & w' & evs & Hrun & _).
  - vm_compute. reflexivity.
  - exists b, w'. split; [exact Hrun|].
    replace w' with (snd (test_complex_python "/tmp/env" Demo.boot))
      by (rewrite Hrun; reflexivity).
    vm_compute. reflexivity.
Defined.

(** ** How a run ends *)

Section Endings.
Context {h : Host}.

Lemma run_scenario_compiled d name src compiler expected args sc (w : World h) :
  d ≠ "" → DEBUGGER_BIN h ∈ fs w → is_compiler compiler →
  sc_probe sc = ret true →
  sc_run sc = (λ config_dir, test_program name src (Some compiler) expected
                               config_dir args) →
  ∃ o w', run_scenario sc d w = (Ret o, w') ∧ env_step d w w'.
Proof.
  intros Hd Hbin Hc Hprobe Hrun. unfold run_scenario.
  rewrite Hprobe, Hrun, bind_run, ret_run, bind_run.
  destruct (test_program_session name src (Some compiler) expected d args w Hbin)
    as (b & w' & evs & -> & Htr & Hfs & _ & Henv & _).
  { intros f [= <-]. exact Hc. }
  rewrite ret_run. eexists _, _. split; [reflexivity|].
  exists evs. auto.
Qed.

(** Without the interpreter the iteration ends in the probe of the third
    scenario. *)
Lemma run_scenarios_without_interpreter d (w : World h) :
  d ≠ "" → DEBUGGER_BIN h ∈ fs w → which h (PYTHON h) = false →
  ∃ o_c o_rs w',
    run_scenarios scenarios d [] w =
      ([("test_c", o_c); ("test_rs", o_rs)],
       Raise (FileNotFoundError (PYTHON h)), w') ∧
    env_step d w w'.
Proof.
  intros Hd Hbin Hpy. unfold scenarios. cbn [run_scenarios].
  destruct (run_scenario_compiled d _ _ _ _ _ scenario_c w Hd Hbin
              compile_c_is_compiler eq_refl eq_refl)
    as (o1 & w1 & -> & Hstep1).
  destruct (run_scenario_compiled d _ _ _ _ _ scenario_rs w1 Hd
              (env_step_bin d w w1 Hstep1 Hbin)
              compile_rust_is_compiler eq_refl eq_refl)
    as (o2 & w2 & -> & Hstep2).
  unfold run_scenario at 1, scenario_py at 1. cbn [sc_probe sc_run sc_name app].
  rewrite !bind_run. unfold check_debugpy, try_except. rewrite bind_run.
  rewrite check_call_absent by exact Hpy. cbn [is_CalledProcessError hd].
  exists o1, o2, w2. split; [reflexivity|].
  eapply env_step_trans; eassumption.
Qed.

End Endings.

(** X15. [main] never returns: every run ends in [SystemExit] with code 0
    or 1, in the [FileExistsError] of [tempfile.mkdtemp], or in the
    [FileNotFoundError] of an interpreter that is not there.  It ends in
    [SystemExit 0] exactly when the last thing it did was to print
    [All tests passed!]. *)
Theorem main_always_raises (h : Host) (w : World h) :
  ∃ e w' evs,
    main w = (Raise e, w') ∧
    trace w' = (evs ++ trace w)%list ∧
    (e = SystemExit 0 ∨ e = SystemExit 1 ∨
     (∃ msg, e = FileExistsError msg) ∨ e = FileNotFoundError (PYTHON h)) ∧
    (e = SystemExit 0 ↔ head evs = Some (Print "[TEST] All tests passed!")).
Proof.
  destruct (run_all_cases w) as (report & r & w' & _ & Hmain & Hcases).
  destruct Hcases
    as [(Hno & _) | [(_ & _ & (msg & ->) & Htr)
         | (_ & d & content & evs & closing & _ & _ & Htr & _ & _ & Hres)]].
  - clear Hmain. unfold main. rewrite bind_run. unfold os_path_exists.
    rewrite (bool_decide_eq_false_2 _ Hno). cbn [negb].
    rewrite bind_run, log_run. cbn beta iota.
    eexists _, _, [_]. split; [reflexivity|]. split; [reflexivity|].
    split; [right; left; reflexivity|].
    split; [discriminate|]. cbn [head]. rewrite !append_cons. discriminate.
  - exists (FileExistsError msg), w', []. split; [exact Hmain|].
    split; [exact Htr|]. split; [right; right; left; eexists; reflexivity|].
    split; discriminate.
  - destruct Hres as [(_ & -> & ->) | (_ & -> & ->)].
    + destruct (any_failed report); eexists _, w', _;
        (split; [exact Hmain|]); (split; [rewrite Htr; trace_ext|]).
      * split; [right; left; reflexivity|]. split; discriminate.
      * split; [left; reflexivity|]. split; reflexivity.
    + eexists _, w', _. split; [exact Hmain|].
      split; [rewrite Htr; trace_ext|].
      split; [right; right; right; reflexivity|]. split; discriminate.
Qed.

(** X16. [check_debugpy] does not catch the [FileNotFoundError] of an
    interpreter that is not there, and neither does [main]: on such a
    host a run that provisioned its environment runs the C and the Rust
    scenario, ends in that exception with the other three scenarios not
    run, and exits with 1.  The [finally] clause has still removed the
    environment: that was the last thing the run did. *)
Theorem missing_interpreter_aborts_the_run (h : Host) (w : World h)
    (d : string) (w1 : World h) :
  DEBUGGER_BIN h ∈ fs w →
  which h (PYTHON h) = false →
  setup_config w = (Ret d, w1) →
  ∃ report w' evs,
    run_all w = (report, Raise (FileNotFoundError (PYTHON h)), w') ∧
    main w = (Raise (FileNotFoundError (PYTHON h)), w') ∧
    exit_status (fst (main w)) = 1 ∧
    map fst report = ["test_c"; "test_rs"] ∧
    trace w' = (Rmtree d :: evs ++ trace w1)%list ∧
    (∀ p, under d p → p ∉ fs w').
Proof.
  intros Hbin Hpy Hsetup.
  destruct (setup_config_cases w)
    as [(msg & w0 & Hs & _)
       | (d0 & w0 & content & Hs & Hfresh & Hd & Hin1 & Hfs1 & Htr1)];
    rewrite Hs in Hsetup; [discriminate Hsetup|].
  injection Hsetup as <- <-.
  rewrite (main_refines_run_all w). unfold run_all.
  rewrite (bool_decide_eq_true_2 _ Hbin). cbn [negb].
  rewrite Hs, log_run.
  match goal with |- context [run_scenarios scenarios d0 [] ?w2] =>
    destruct (run_scenarios_without_interpreter d0 w2 Hd
                (Hfs1 _ Hbin) Hpy)
      as (o1 & o2 & w3 & -> & (evs & Htr3 & _ & Hfs3))
  end.
  cbn [fs trace] in Htr3, Hfs3.
  rewrite (destroy_present d0 w3 (Hfs3 _ Hin1)).
  eexists _, _, _. split; [reflexivity|]. split; [reflexivity|].
  split; [reflexivity|]. split; [reflexivity|]. cbn [trace fs].
  split; [rewrite Htr3; apply ext_cons; trace_ext|].
  intros p Hp. apply not_under_filter, Hp.
Qed.

Lemma missing_interpreter_aborts_the_run_witness :
  ∃ report w',
    run_all boot_without_python
      = (report, Raise (FileNotFoundError "/usr/bin/python3"), w') ∧
    map fst report = ["test_c"; "test_rs"].
Proof.
  destruct (missing_interpreter_aborts_the_run without_python
              boot_without_python
              (match fst (setup_config boot_without_python) with
               | Ret d => d | _ => "" end)
              (snd (setup_config boot_without_python)))
    as (report & w' & evs & Hrun & _ & _ & Hnames & _).
  - vm_compute. reflexivity.
  - reflexivity.
  - vm_compute. reflexivity.
  - exists report, w'. split; [exact Hrun | exact Hnames].
Defined.

(** ** What a run leaves alone *)

Lemma ends_with_append c a b :
  b ≠ "" → ends_with c (a +:+ b) = ends_with c b.
Proof.
  intros Hb. induction a as [|x a IH]; [reflexivity|].
  rewrite append_cons. cbn [ends_with]. rewrite IH.
  destruct (a +:+ b) eqn:Hab; [|reflexivity].
  destruct a; [contradiction|]. rewrite append_cons in Hab. discriminate.
Qed.

Lemma path_join_suffix a b : ∃ pre, path_join a b = pre +:+ b.
Proof.
  unfold path_join. destruct (String.prefix "/" b); [exists ""; reflexivity|].
  destruct (String.eqb a "" || ends_with "/" a)%bool.
  - exists a. reflexivity.
  - exists (a +:+ "/"). rewrite append_assoc. reflexivity.
Qed.

Lemma config_is_not_the_debuggee a b :
  path_join a "config.toml" ≠ path_join b "hello_world.py".
Proof.
  destruct (path_join_suffix a "config.toml") as [pa ->].
  destruct (path_join_suffix b "hello_world.py") as [pb ->].
  intros Heq. apply (f_equal (ends_with "l")) in Heq.
  rewrite !ends_with_append in Heq by discriminate. discriminate Heq.
Qed.

Section Keeps.
Context {h : Host} (p : string) (P : Event → Prop).

Lemma keeps_ret {A} (a : A) : keeps (h:=h) p P (ret a).
Proof. intros w Hp. exists []. split; [reflexivity|]. split; [constructor | exact Hp]. Qed.

Lemma keeps_raise {A} e : keeps (h:=h) (A:=A) p P (raise e).
Proof. intros w Hp. exists []. split; [reflexivity|]. split; [constructor | exact Hp]. Qed.

Lemma keeps_bind {A B} (m : M h A) (f : A → M h B) :
  keeps p P m → (∀ a, keeps p P (f a)) → keeps p P (bind m f).
Proof.
  intros Hm Hf w Hp. rewrite bind_run. destruct (Hm w Hp) as (evs1 & Ht1 & He1 & Hp1).
  destruct (m w) as [[a|e] w1]; cbn [snd] in *.
  - destruct (Hf a w1 Hp1) as (evs2 & Ht2 & He2 & Hp2).
    exists (evs2 ++ evs1)%list. split; [|split].
    + rewrite Ht2, Ht1, List.app_assoc. reflexivity.
    + apply Forall_app. split; assumption.
    + exact Hp2.
  - exists evs1. auto.
Qed.

Lemma keeps_try_except {A} catches (body : M h A) handler :
  keeps p P body → (∀ e, keeps p P (handler e)) →
  keeps p P (try_except catches body handler).
Proof.
  intros Hb Hh w Hp. unfold try_except.
  destruct (Hb w Hp) as (evs1 & Ht1 & He1 & Hp1).
  destruct (body w) as [[a|e] w1]; cbn [snd] in *.
  - exists evs1. auto.
  - destruct (catches e); [|exists evs1; auto].
    destruct (Hh e w1 Hp1) as (evs2 & Ht2 & He2 & Hp2).
    exists (evs2 ++ evs1)%list. split; [|split].
    + rewrite Ht2, Ht1, List.app_assoc. reflexivity.
    + apply Forall_app. split; assumption.
    + exact Hp2.
Qed.

Lemma keeps_emit e : P e → keeps (h:=h) p P (emit e).
Proof.
  intros He w Hp. exists [e]. split; [reflexivity|].
  split; [repeat constructor; exact He | exact Hp].
Qed.

Lemma keeps_os_path_exists q : keeps (h:=h) p P (os_path_exists q).
Proof. intros w Hp. exists []. split; [reflexivity|]. split; [constructor | exact Hp]. Qed.

Lemma keeps_os_makedirs q : P (Makedirs q) → keeps (h:=h) p P (os_makedirs q).
Proof.
  intros He w Hp. exists [Makedirs q]. split; [reflexivity|].
  split; [repeat constructor; exact He|]. cbn [snd fs os_makedirs].
  apply elem_of_union_l, Hp.
Qed.

Lemma keeps_write_file q c : P (WriteFile q c) → keeps (h:=h) p P (write_file q c).
Proof.
  intros He w Hp. exists [WriteFile q c]. split; [reflexivity|].
  split; [repeat constructor; exact He|]. cbn [snd fs write_file].
  apply elem_of_union_l, Hp.
Qed.

Lemma keeps_check_call cmd :
  (∀ rc, P (CheckCall cmd rc)) → keeps (h:=h) p P (subprocess_check_call cmd).
Proof.
  intros He w Hp. unfold subprocess_check_call. destruct (which h (hd "" cmd)).
  - destruct (tool h cmd (ext w)) as [rc e']. exists [CheckCall cmd rc].
    split; [destruct (rc =? 0); reflexivity|].
    split; [repeat constructor; apply He|].
    destruct (rc =? 0); exact Hp.
  - exists []. split; [reflexivity|]. split; [constructor | exact Hp].
Qed.

Lemma keeps_popen inv :
  (∀ c, P (Popen inv c)) → keeps (h:=h) p P (subprocess_Popen_communicate inv).
Proof.
  intros He w Hp. unfold subprocess_Popen_communicate.
  destruct (bool_decide (hd "" (argv inv) ∈ fs w)).
  - destruct (debugger h inv (ext w)) as [c e']. exists [Popen inv c].
    split; [reflexivity|]. split; [repeat constructor; apply He | exact Hp].
  - exists []. split; [reflexivity|]. split; [constructor | exact Hp].
Qed.

Lemma keeps_mkdtemp prefix :
  (∀ q, P (Mkdtemp q)) → keeps (h:=h) p P (tempfile_mkdtemp prefix).
Proof.
  intros He w Hp. unfold tempfile_mkdtemp.
  destruct (mkdtemp_pick _ _ _ _ _) as [[f|] e'].
  - eexists [_]. split; [reflexivity|].
    split; [repeat constructor; apply He|]. cbn [snd fs].
    apply elem_of_union_l, Hp.
  - exists []. split; [reflexivity|]. split; [constructor | exact Hp].
Qed.

(** What is guarded by the absence of [p] does not happen. *)
Lemma keeps_unless_exists {B} (f : bool → M h B) :
  keeps p P (f true) → keeps p P (bind (os_path_exists p) f).
Proof.
  intros Hf w Hp. rewrite bind_run. unfold os_path_exists.
  rewrite (bool_decide_eq_true_2 _ Hp). apply Hf, Hp.
Qed.

(** The cleanup may remove [p]: of a [try ... finally] only the events are
    kept track of. *)
Lemma keeps_then_emits {A} (body : M h A) cleanup w :
  keeps p P body → emits P cleanup → p ∈ fs w →
  ∃ evs, trace (snd (try_finally body cleanup w)) = (evs ++ trace w)%list ∧
         Forall P evs.
Proof.
  intros Hb Hc Hp. unfold try_finally.
  destruct (Hb w Hp) as (evs1 & Ht1 & He1 & _).
  destruct (body w) as [r w1]; cbn [snd] in *.
  destruct (Hc w1) as (evs2 & Ht2 & He2).
  exists (evs2 ++ evs1)%list. split.
  - destruct (cleanup w1) as [[[]|e] w2]; cbn [snd] in *;
      rewrite Ht2, Ht1, List.app_assoc; reflexivity.
  - apply Forall_app. split; assumption.
Qed.

End Keeps.

Ltac keeps_step :=
  first
    [ apply keeps_ret | apply keeps_raise
    | apply keeps_os_path_exists
    | apply keeps_emit; exact I
    | apply keeps_os_makedirs; exact I
    | apply keeps_check_call; intros ?; exact I
    | apply keeps_popen; intros ?; exact I
    | apply keeps_mkdtemp; intros ?; exact I
    | apply keeps_try_except; [|intros ?]
    | match goal with
      | |- keeps _ _ (if ?b then _ else _) => destruct b
      | |- keeps _ _ (match ?x with _ => _ end) => destruct x
      end
    | apply keeps_bind; [|intros ?]
    | progress cbn beta iota ].

Section Debuggee.
Context {h : Host}.

Lemma run_debugger_command_keeps cmd d i :
  keeps (path_join (TEST_DIR h) "hello_world.py")
    (spares (path_join (TEST_DIR h) "hello_world.py"))
    (run_debugger_command (h:=h) cmd d i).
Proof. unfold run_debugger_command, log. repeat keeps_step. Qed.

Lemma test_program_keeps name src compiler expected d args :
  (∀ f, compiler = Some f →
        f = compile_c ∨ f = compile_rust ∨ f = compile_go) →
  keeps (path_join (TEST_DIR h) "hello_world.py")
    (spares (path_join (TEST_DIR h) "hello_world.py"))
    (test_program (h:=h) name src compiler expected d args).
Proof.
  intros Hc. unfold test_program, time_sleep, log.
  apply keeps_bind; [keeps_step | intros _].
  apply keeps_bind.
  - destruct compiler as [f|]; [|apply keeps_ret].
    destruct (Hc f eq_refl) as [-> | [-> | ->]];
      unfold compile_c, compile_rust, compile_go, log; repeat keeps_step.
  - intros [binary_path|result]; [|apply keeps_ret].
    repeat first [apply run_debugger_command_keeps | keeps_step].
Qed.

Lemma test_complex_python_keeps d :
  keeps (path_join (TEST_DIR h) "hello_world.py")
    (spares (path_join (TEST_DIR h) "hello_world.py"))
    (test_complex_python (h:=h) d).
Proof.
  unfold test_complex_python, log.
  repeat first [apply run_debugger_command_keeps | keeps_step].
Qed.

Lemma main_try_keeps d : keeps (path_join (TEST_DIR h) "hello_world.py")
    (spares (path_join (TEST_DIR h) "hello_world.py"))
    (main_try (h:=h) d).
Proof.
  unfold main_try, check_debugpy, check_delve, log.
  repeat first
    [ apply test_complex_python_keeps
    | apply test_program_keeps; intros ? [= <-]; tauto
    | apply test_program_keeps; intros ?; discriminate
    | apply keeps_unless_exists
    | keeps_step ].
Qed.

Lemma setup_config_keeps : keeps (path_join (TEST_DIR h) "hello_world.py")
    (spares (path_join (TEST_DIR h) "hello_world.py"))
    (setup_config (h:=h)).
Proof.
  unfold setup_config. repeat keeps_step.
  apply keeps_write_file. apply config_is_not_the_debuggee.
Qed.

End Debuggee.

(** X17. The harness creates the Python debuggee only when it is missing:
    on a host where [hello_world.py] is in the test directory when the run
    starts, no run of [main] writes that file. *)
Theorem existing_debuggee_is_not_overwritten (h : Host) (w : World h) :
  path_join (TEST_DIR h) "hello_world.py" ∈ fs w →
  ∃ evs,
    trace (snd (main w)) = (evs ++ trace w)%list ∧
    ∀ content,
      WriteFile (path_join (TEST_DIR h) "hello_world.py") content ∉ evs.
Proof.
  intros Hpy.
  set (py := path_join (TEST_DIR h) "hello_world.py") in *.
  assert (Hmain : ∃ evs, trace (snd (main w)) = (evs ++ trace w)%list ∧
                         Forall (spares py) evs).
  { unfold main. rewrite bind_run. unfold os_path_exists at 1.
    destruct (bool_decide (DEBUGGER_BIN h ∈ fs w)); cbn [negb]; cbn beta iota.
    2:{ rewrite bind_run, log_run. cbn beta iota. eexists [_].
        split; [reflexivity|]. repeat constructor. }
    rewrite bind_run.
    destruct (setup_config_keeps w Hpy) as (evs1 & Ht1 & He1 & Hp1).
    destruct (setup_config w) as [[d|e] w1]; cbn [snd] in *;
      [|exists evs1; auto].
    rewrite bind_run, log_run. cbn beta iota. rewrite bind_run.
    match goal with |- context [try_finally ?b ?c ?w2] =>
      destruct (keeps_then_emits py (spares py) b c w2) as (evs2 & Ht2 & He2);
        [ apply main_try_keeps
        | unfold destroy; apply emits_shutil_rmtree; exact I
        | exact Hp1 | ];
      destruct (try_finally b c w2) as [[failed|e] w3]
    end; cbn [snd trace] in Ht2.
    - destruct failed; [|rewrite bind_run, log_run; cbn beta iota];
        cbn [sys_exit raise snd trace]; rewrite Ht2, Ht1;
        eexists; (split; [trace_ext|]);
        repeat first [ apply Forall_app; split | assumption
                     | apply List.Forall_cons; [exact I|]
                     | apply List.Forall_nil ].
    - cbn [snd]. rewrite Ht2, Ht1. eexists. split; [trace_ext|].
      repeat first [ apply Forall_app; split | assumption
                   | apply List.Forall_cons; [exact I|]
                   | apply List.Forall_nil ]. }
  destruct Hmain as (evs & Htr & Hall). exists evs. split; [exact Htr|].
  intros content Hin. rewrite Forall_forall in Hall.
  exact (Hall _ Hin eq_refl).
Qed.

Lemma existing_debuggee_is_not_overwritten_witness :
  ∃ evs,
    trace (snd (main boot_with_debuggee))
      = (evs ++ trace boot_with_debuggee)%list ∧
    ∀ content,
      WriteFile (path_join (TEST_DIR Demo.healthy) "hello_world.py") content
        ∉ evs.
Proof.
  apply (existing_debuggee_is_not_overwritten Demo.healthy boot_with_debuggee).
  vm_compute. reflexivity.
Defined.

(** X18. A run removes nothing but its own environment: every path that
    was there when [main] started is there when it ends, unless it lies
    beneath the directory [setup_config] handed out, a directory that was
    not there. *)
Theorem run_removes_only_its_environment (h : Host) (w : World h) :
  ∃ r w',
    main w = (r, w') ∧
    ∀ p, p ∈ fs w →
      p ∈ fs w' ∨
      ∃ d w1, setup_config w = (Ret d, w1) ∧ (d ∉ fs w) ∧ under d p.
Proof.
  rewrite (main_refines_run_all w). unfold run_all.
  destruct (bool_decide (DEBUGGER_BIN h ∈ fs w)) eqn:Hbin; cbn [negb].
  2:{ rewrite bind_run, log_run. cbn beta iota.
      eexists _, _. split; [reflexivity|]. intros p Hp. left. exact Hp. }
  apply bool_decide_eq_true in Hbin.
  destruct (setup_config_cases w)
    as [(msg & w1 & Hs & _ & Hfs1)
       | (d & w1 & content & Hs & Hfresh & Hd & Hin1 & Hfs1 & _)];
    rewrite Hs.
  { eexists _, _. split; [reflexivity|]. intros p Hp. left.
    rewrite Hfs1. exact Hp. }
  rewrite log_run.
  match goal with |- context [run_scenarios scenarios d [] ?w2] =>
    destruct (run_scenarios_step d scenarios Hd (reflexivity _) [] w2
                (Hfs1 _ Hbin))
      as (report & r & w3 & -> & (evs & _ & _ & Hfs3) & _)
  end.
  cbn [fs] in Hfs3.
  rewrite (destroy_present d w3 (Hfs3 _ Hin1)).
  assert (Hkept : ∀ p, p ∈ fs w →
            p ∈ filter (λ q, ¬ under d q) (fs w3) ∨
            ∃ d0 w0, (Ret d, w1) = (Ret d0, w0) ∧ (d0 ∉ fs w) ∧ under d0 p).
  { intros p Hp. destruct (decide (under d p)) as [Hu|Hn].
    - right. exists d, w1. auto.
    - left. apply elem_of_filter. split; [exact Hn | apply Hfs3, Hfs1, Hp]. }
  destruct r as [[]|e].
  - destruct (any_failed report);
      [|rewrite bind_run, log_run; cbn beta iota];
      eexists _, _; (split; [reflexivity|]); exact Hkept.
  - eexists _, _. split; [reflexivity|]. exact Hkept.
Qed.
